(** * The hardware-database converter [data/hwdb/generate_hwdb.py]

    A shallow embedding of the script and the properties of its
    products / models / key_len tables.

    Modelling choices.
    - A Python [str] is a [string]; a character is an [ascii], read as a
      code point below 256.
    - The SQLite store is a record of three optional tables (a table that
      was not created yet is [None]); a table with a TEXT PRIMARY KEY is a
      finite map from its key column to its value column.
    - Exceptions are the constructors of [error]; a computation that may
      raise returns a [result].
    - The program reads every input file completely before it looks at its
      contents, so the run takes the list of the files' contents, in the
      order of the command line, and the [hw.db] found in the output
      directory, if any. *)

From Stdlib Require Import ZArith Ascii String List Lia.
From stdpp Require Import base option list gmap strings.

Local Open Scope string_scope.
Local Open Scope Z_scope.

(** ** Exceptions *)

Inductive error : Set :=
  | ValueError        (* unpacking [ty, value] from a list that is too short *)
  | IndexError        (* [l[0]] on an empty list *)
  | IntegrityError    (* sqlite3: a second row with the same primary key *)
  | OperationalError. (* sqlite3: table exists already / no such table *)

Inductive result (A : Type) : Type :=
  | Ok (a : A)
  | Err (e : error).
Arguments Ok {A} a.
Arguments Err {A} e.

#[global] Instance result_ret : MRet result := fun A a => Ok a.
#[global] Instance result_bind : MBind result := fun A B f m =>
  match m with
  | Ok a => f a
  | Err e => Err e
  end.

(** A [for] loop whose body may raise. *)
Fixpoint foldM {A B : Type} (f : B -> A -> result A) (l : list B) (a : A) : result A :=
  match l with
  | [] => Ok a
  | x :: l' => a' ← f x a; foldM f l' a'
  end.

(** ** Python string methods *)

(** [str.isspace] on one character: the code points below 256 that Python
    counts as whitespace are 9..13, 28..32, 133 and 160. *)
Definition isspace (c : ascii) : bool :=
  let n := N_of_ascii c in
  ((9 <=? n) && (n <=? 13) || (28 <=? n) && (n <=? 32) || (n =? 133) || (n =? 160))%N.

Fixpoint lstrip (s : string) : string :=
  match s with
  | EmptyString => EmptyString
  | String c s' => if isspace c then lstrip s' else s
  end.

Fixpoint rstrip (s : string) : string :=
  match s with
  | EmptyString => EmptyString
  | String c s' =>
      match rstrip s' with
      | EmptyString => if isspace c then EmptyString else String c EmptyString
      | r => String c r
      end
  end.

(** [s.strip()] *)
Definition strip (s : string) : string := rstrip (lstrip s).

(** [len(s)] *)
Definition len (s : string) : Z := Z.of_nat (String.length s).

(** The truth value of a string: [if s:] *)
Definition truthy (s : string) : bool :=
  match s with
  | EmptyString => false
  | String _ _ => true
  end.

(** [s.startswith(p)] *)
Fixpoint startswith (p s : string) : bool :=
  match p, s with
  | EmptyString, _ => true
  | String a p', String b s' => Ascii.eqb a b && startswith p' s'
  | String _ _, EmptyString => false
  end.

(** [s.endswith(p)]: some suffix of [s] is [p]. *)
Fixpoint endswith (p s : string) : bool :=
  String.eqb p s ||
  match s with
  | EmptyString => false
  | String _ s' => endswith p s'
  end.

(** [s.split(sep)] for a separator of one character: the pieces between
    the occurrences of [sep]; never the empty list. *)
Fixpoint split (sep : ascii) (s : string) : list string :=
  match s with
  | EmptyString => [EmptyString]
  | String c s' =>
      if Ascii.eqb c sep then EmptyString :: split sep s'
      else match split sep s' with
           | [] => [String c EmptyString]
           | x :: xs => String c x :: xs
           end
  end.

(** [s.split(sep, 1)] for a separator of one character: at most one cut,
    at the first occurrence of [sep]. *)
Fixpoint split1 (sep : ascii) (s : string) : list string :=
  match s with
  | EmptyString => [EmptyString]
  | String c s' =>
      if Ascii.eqb c sep then [EmptyString; s']
      else match split1 sep s' with
           | [] => [String c EmptyString]
           | x :: xs => String c x :: xs
           end
  end.

(** [l[0]] *)
Definition getitem0 {A : Type} (l : list A) : result A :=
  match l with
  | [] => Err IndexError
  | x :: _ => Ok x
  end.

(** The line feed, ["\n"]. *)
Definition LF : ascii := "010"%char.

(** ** The SQLite store *)

Record store : Type := Store {
  products : option (gmap string string);
  models : option (gmap string string);
  key_len : option (gmap string Z)
}.

(** A database file that was just created holds no table. *)
Definition new_store : store :=
  {| products := None; models := None; key_len := None |}.

(** [os.remove(db_filename) if os.path.exists(db_filename) else None] *)
Definition remove_if_exists (hwdb : option store) : option store :=
  match hwdb with
  | Some _ => None
  | None => None
  end.

(** [sqlite3.connect(db_filename)]: opens the file, creating it when it is
    not there. *)
Definition connect (hwdb : option store) : store :=
  match hwdb with
  | Some db => db
  | None => new_store
  end.

(** [CREATE TABLE t (key TEXT PRIMARY KEY, value ...)] *)
Definition create_table {V : Type} (t : option (gmap string V)) : result (gmap string V) :=
  match t with
  | Some _ => Err OperationalError
  | None => Ok ∅
  end.

(** [INSERT INTO t (key, value) VALUES (?, ?)] *)
Definition insert_row {V : Type} (k : string) (v : V) (t : option (gmap string V))
    : result (gmap string V) :=
  match t with
  | None => Err OperationalError
  | Some m =>
      match m !! k with
      | Some _ => Err IntegrityError
      | None => Ok (<[k:=v]> m)
      end
  end.

Definition create_products (db : store) : result store :=
  m ← create_table (products db);
  mret {| products := Some m; models := models db; key_len := key_len db |}.

Definition create_models (db : store) : result store :=
  m ← create_table (models db);
  mret {| products := products db; models := Some m; key_len := key_len db |}.

Definition create_key_len (db : store) : result store :=
  m ← create_table (key_len db);
  mret {| products := products db; models := models db; key_len := Some m |}.

Definition insert_products (k v : string) (db : store) : result store :=
  m ← insert_row k v (products db);
  mret {| products := Some m; models := models db; key_len := key_len db |}.

Definition insert_models (k v : string) (db : store) : result store :=
  m ← insert_row k v (models db);
  mret {| products := products db; models := Some m; key_len := key_len db |}.

Definition insert_key_len (k : string) (v : Z) (db : store) : result store :=
  m ← insert_row k v (key_len db);
  mret {| products := products db; models := models db; key_len := Some m |}.

(** ** The program *)

(** The variables that live across the whole run: the open store and the
    two bounds. *)
Record state : Type := State {
  cursor : store;
  key_len_min : Z;
  key_len_max : Z
}.

Definition set_cursor (db : store) (st : state) : state :=
  {| cursor := db; key_len_min := key_len_min st; key_len_max := key_len_max st |}.

Definition set_min (n : Z) (st : state) : state :=
  {| cursor := cursor st; key_len_min := n; key_len_max := key_len_max st |}.

Definition set_max (n : Z) (st : state) : state :=
  {| cursor := cursor st; key_len_min := key_len_min st; key_len_max := n |}.

(** [[line.strip() for line in contents.split("\n")
      if line.strip() and not line.startswith("#")]] *)
Definition file_lines (contents : string) : list string :=
  map strip
    (List.filter (fun line => truthy (strip line) && negb (startswith "#" line))
       (split LF contents)).

(** The body of [for line in lines:]; [key] is the variable of the
    enclosing loop over the files. *)
Definition body (line : string) (ks : string * state) : result (string * state) :=
  let '(key, st) := ks in
  if truthy line then
    if endswith "*" line then
      key ← getitem0 (split "*" line);
      let st := if len key <? key_len_min st then set_min (len key) st else st in
      let st := if len key >? key_len_max st then set_max (len key) st else st in
      mret (key, st)
    else
      if negb (startswith "ID_" line) then mret (key, st)
      else
        match split1 "=" line with
        | [ty; value] =>
            db ← (if String.eqb ty "ID_PRODUCT_FROM_DATABASE"
                  then insert_products (strip key) (strip value) (cursor st)
                  else mret (cursor st));
            db ← (if String.eqb ty "ID_MODEL_FROM_DATABASE"
                  then insert_models (strip key) (strip value) db
                  else mret db);
            mret (key, set_cursor db st)
        | _ => Err ValueError
        end
  else mret (key, st).

(** The body of [for filename in args.files:], on the contents read. *)
Definition do_file (contents : string) (st : state) : result state :=
  let lines := file_lines contents in
  ks ← foldM body lines ("", st);
  mret (snd ks).

(** The whole script.  The result is the store as committed. *)
Definition main (hwdb : option store) (files : list string) : result store :=
  let hwdb := remove_if_exists hwdb in
  let conn := connect hwdb in
  db ← create_products conn;
  db ← create_models db;
  db ← create_key_len db;
  let st := {| cursor := db; key_len_min := 2 ^ 32; key_len_max := 0 |} in
  st ← foldM do_file files st;
  db ← insert_key_len "min" (key_len_min st) (cursor st);
  db ← insert_key_len "max" (key_len_max st) db;
  mret db.

(** ** Vocabulary of the statements *)

(** The two attributes the script stores, each with its table. *)
Inductive category : Set := Product | Model.

#[global] Instance category_eq_dec : EqDecision category.
Proof. solve_decision. Defined.

Definition attr_name (cat : category) : string :=
  match cat with
  | Product => "ID_PRODUCT_FROM_DATABASE"
  | Model => "ID_MODEL_FROM_DATABASE"
  end.

Definition table (cat : category) (db : store) : option (gmap string string) :=
  match cat with
  | Product => products db
  | Model => models db
  end.

Definition insert_attr (cat : category) : string -> string -> store -> result store :=
  match cat with
  | Product => insert_products
  | Model => insert_models
  end.

(** [c in s] *)
Fixpoint contains (c : ascii) (s : string) : bool :=
  match s with
  | EmptyString => false
  | String a s' => Ascii.eqb a c || contains c s'
  end.

(** The text in front of the first [sep], the whole string when there is
    none: what [s.split(sep)[0]] evaluates to. *)
Fixpoint before (sep : ascii) (s : string) : string :=
  match s with
  | EmptyString => EmptyString
  | String c s' => if Ascii.eqb c sep then EmptyString else String c (before sep s')
  end.

(** A line of [lines] on which the loop takes the key branch. *)
Definition is_key_line (line : string) : bool := endswith "*" line.

(** A line of [lines] that reaches the INSERT of [cat] with [value]. *)
Definition attr_line (cat : category) (value line : string) : Prop :=
  line = attr_name cat +:+ String "=" value /\ is_key_line line = false.

(** The value of the variable [key] after the loop went over [lines],
    entered with [key]. *)
Definition key_from (key : string) (lines : list string) : string :=
  fold_left (fun key line => if is_key_line line then before "*" line else key) lines key.

(** The same from the start of a file, where [key = ''] . *)
Definition key_at (lines : list string) : string := key_from "" lines.

(** ["\n".join(ls)] *)
Definition unlines (ls : list string) : string := String.concat (String LF EmptyString) ls.

Definition all_lines (p : string -> bool) (files : list string) : bool :=
  forallb (fun contents => forallb p (file_lines contents)) files.

(** No file has a key line. *)
Definition no_key_lines (files : list string) : bool :=
  all_lines (fun line => negb (is_key_line line)) files.

(** No key line has whitespace in front of its first [*]. *)
Definition keys_trimmed (files : list string) : bool :=
  all_lines (fun line =>
    negb (is_key_line line) || String.eqb (strip (before "*" line)) (before "*" line)) files.

(** The store right after the three CREATE TABLE statements, and the
    variables of the run at that point. *)
Definition empty_db : store :=
  {| products := Some ∅; models := Some ∅; key_len := Some ∅ |}.

Definition start : state :=
  {| cursor := empty_db; key_len_min := 2 ^ 32; key_len_max := 0 |}.

(** The two INSERTs into key_len that end the run. *)
Definition finish (st : state) : result store :=
  db ← insert_key_len "min" (key_len_min st) (cursor st);
  db ← insert_key_len "max" (key_len_max st) db;
  mret db.

(** The bounds after a key of length [n] was seen. *)
Definition bump (n : Z) (st : state) : state :=
  {| cursor := cursor st;
     key_len_min := Z.min (key_len_min st) n;
     key_len_max := Z.max (key_len_max st) n |}.

(** The store with the table of [cat] replaced. *)
Definition set_table (cat : category) (t : gmap string string) (db : store) : store :=
  match cat with
  | Product => {| products := Some t; models := models db; key_len := key_len db |}
  | Model => {| products := products db; models := Some t; key_len := key_len db |}
  end.

(** Table [cat] of [db] has the row [(k, v)]. *)
Definition holds (cat : category) (db : store) (k v : string) : Prop :=
  exists t, table cat db = Some t /\ t !! k = Some v.

(** What the INSERTs of one attribute line can make of the store: each of
    products and models is as before or has one new row, under [k], and
    key_len is as before. *)
Definition grows (k : string) (db db' : store) : Prop :=
  key_len db' = key_len db /\
  forall cat,
    table cat db' = table cat db \/
    exists t v, table cat db = Some t /\ t !! k = None /\ table cat db' = Some (<[k:=v]> t).

(** The store while the files are read: products and models exist and
    key_len is still empty. *)
Definition ready (db : store) : Prop :=
  is_Some (products db) /\ is_Some (models db) /\ key_len db = Some ∅.

(** The store as the run commits it from the final variables. *)
Definition committed (st : state) : store :=
  {| products := products (cursor st);
     models := models (cursor st);
     key_len := Some (<["max" := key_len_max st]> (<["min" := key_len_min st]> ∅)) |}.

(** A line on which the loop gets to the INSERT into the table of [cat]. *)
Definition reaches (cat : category) (line : string) : bool :=
  negb (is_key_line line) && startswith "ID_" line &&
  match split1 "=" line with
  | [ty; _] => String.eqb ty (attr_name cat)
  | _ => false
  end.

(** A line on which the loop does not get to unpack a list of one piece. *)
Definition unpackable (line : string) : bool :=
  is_key_line line || negb (startswith "ID_" line) || contains "=" line.

(** How many INSERTs into the table of [cat] the lines ask for. *)
Definition inserts_of (cat : category) (lines : list string) : nat :=
  length (List.filter (reaches cat) lines).

Definition inserts (cat : category) (files : list string) : nat :=
  inserts_of cat (concat (map file_lines files)).

(** Table [t] can take [n] more rows under the empty key. *)
Definition takes (n : nat) (t : gmap string string) : Prop :=
  n = 0%nat \/ ((n <= 1)%nat /\ t !! "" = None).

(** The store can take the INSERTs [lines] ask for, all under the empty key. *)
Definition can_take (lines : list string) (st : state) : Prop :=
  forall cat, exists t, table cat (cursor st) = Some t /\ takes (inserts_of cat lines) t.

(** The lines the loop goes over in the whole run, file after file. *)
Definition lines_of (files : list string) : list string := concat (map file_lines files).

(** The lengths the key lines among [lines] put into the bounds. *)
Definition key_lengths (lines : list string) : list Z :=
  map (fun line => len (before "*" line)) (List.filter is_key_line lines).

(** A line that is neither a key line nor gets to an INSERT nor fails to
    unpack: it does not start with [ID_], or it is [ty=value] for another
    [ty] than the two attribute names. *)
Definition ignored (line : string) : Prop :=
  is_key_line line = false /\
  (startswith "ID_" line = false \/
   exists ty value, split1 "=" line = [ty; value] /\
     ty <> "ID_PRODUCT_FROM_DATABASE" /\ ty <> "ID_MODEL_FROM_DATABASE").

(** No leading and no trailing whitespace. *)
Definition trimmed (s : string) : Prop := strip s = s.

(** The keys of the INSERTs into the table of [cat] that [lines] ask for,
    in order, when the loop is entered with [key]. *)
Fixpoint row_keys (cat : category) (key : string) (lines : list string) : list string :=
  match lines with
  | [] => []
  | line :: lines' =>
      if is_key_line line then row_keys cat (before "*" line) lines'
      else if reaches cat line then strip key :: row_keys cat key lines'
      else row_keys cat key lines'
  end.

(** The same for a whole run: [key] is the empty string at the start of
    each file. *)
Definition run_row_keys (cat : category) (files : list string) : list string :=
  concat (map (fun contents => row_keys cat "" (file_lines contents)) files).

(** Table [cat] of the store is there and has none of the keys [ks], which
    are all different. *)
Definition room_for (cat : category) (ks : list string) (db : store) : Prop :=
  exists t, table cat db = Some t /\ NoDup ks /\ forall k, k ∈ ks -> t !! k = None.

(** The input of section 8 of the specification. *)
Definition example_input : string :=
  unlines ["ab*";
           "ID_PRODUCT_FROM_DATABASE=Acme Widget";
           "ID_MODEL_FROM_DATABASE=Widget 2000";
           "abc*";
           "ID_MODEL_FROM_DATABASE=Widget 3000"].

(** * Properties *)

(** ** The error monad and the loops *)

Lemma bind_Ok {A B : Type} (m : result A) (f : A -> result B) (b : B) :
  m ≫= f = Ok b -> exists a, m = Ok a /\ f a = Ok b.
Proof. destruct m as [a|e]; [eauto | discriminate]. Qed.

Lemma foldM_app {A B : Type} (f : B -> A -> result A) (l1 l2 : list B) (a : A) :
  foldM f (l1 ++ l2) a = foldM f l1 a ≫= foldM f l2.
Proof.
  revert a. induction l1 as [|x l1 IH]; intros a; [reflexivity|].
  simpl. destruct (f x a) as [a'|e]; simpl; [apply IH | reflexivity].
Qed.

Lemma foldM_split {A B : Type} (f : B -> A -> result A) l1 x l2 (a b : A) :
  foldM f (l1 ++ x :: l2) a = Ok b ->
  exists a1 a2, foldM f l1 a = Ok a1 /\ f x a1 = Ok a2 /\ foldM f l2 a2 = Ok b.
Proof.
  rewrite foldM_app. intros H.
  apply bind_Ok in H as (a1 & H1 & H). simpl in H.
  apply bind_Ok in H as (a2 & H2 & H). eauto.
Qed.

Lemma foldM_invariant {A B : Type} (P : A -> Prop) (f : B -> A -> result A) l :
  (forall x a a', In x l -> P a -> f x a = Ok a' -> P a') ->
  forall a b, P a -> foldM f l a = Ok b -> P b.
Proof.
  induction l as [|x l IH]; intros Hf a b Ha H; simpl in H.
  - congruence.
  - apply bind_Ok in H as (a' & Hx & H).
    eapply IH; [| |exact H].
    + intros y c c' Hy. apply Hf. now right.
    + eapply Hf; [now left|exact Ha|exact Hx].
Qed.

Lemma foldM_raises {A B : Type} (f : B -> A -> result A) l1 x l2 (a : A) :
  (forall a1, foldM f l1 a = Ok a1 -> exists e, f x a1 = Err e) ->
  exists e, foldM f (l1 ++ x :: l2) a = Err e.
Proof.
  intros Hx. rewrite foldM_app.
  destruct (foldM f l1 a) as [a1|e] eqn:H1; simpl; [|eauto].
  destruct (Hx a1 eq_refl) as [e ->]. simpl. eauto.
Qed.

(** ** The string methods *)

Lemma split_before sep s : exists tl, split sep s = before sep s :: tl.
Proof.
  induction s as [|c s [tl IH]]; simpl; [eauto|].
  destruct (Ascii.eqb c sep); [eauto|]. rewrite IH. eauto.
Qed.

Lemma getitem0_split sep s : getitem0 (split sep s) = Ok (before sep s).
Proof. destruct (split_before sep s) as [tl ->]. reflexivity. Qed.

Lemma split1_without sep s : contains sep s = false -> split1 sep s = [s].
Proof.
  induction s as [|c s IH]; simpl; [reflexivity|].
  destruct (Ascii.eqb c sep); simpl; [discriminate|].
  intros H. now rewrite IH.
Qed.

Lemma split1_with sep s :
  contains sep s = true -> exists p v, split1 sep s = [p; v].
Proof.
  induction s as [|c s IH]; simpl; [discriminate|].
  destruct (Ascii.eqb c sep); simpl; [eauto|].
  intros H. destruct (IH H) as (p & v & ->). eauto.
Qed.

Lemma split1_cut sep p v :
  contains sep p = false -> split1 sep (p +:+ String sep v) = [p; v].
Proof.
  induction p as [|c p IH]; simpl.
  - now rewrite Ascii.eqb_refl.
  - destruct (Ascii.eqb c sep); simpl; [discriminate|].
    intros H. now rewrite IH.
Qed.

Lemma key_line_truthy line : is_key_line line = true -> truthy line = true.
Proof. now destruct line. Qed.

Lemma length_lstrip s : (String.length (lstrip s) <= String.length s)%nat.
Proof. induction s as [|c s IH]; simpl; [lia|]. destruct (isspace c); simpl; lia. Qed.

Lemma length_rstrip s : (String.length (rstrip s) <= String.length s)%nat.
Proof.
  induction s as [|c s IH]; simpl; [lia|].
  destruct (rstrip s); [destruct (isspace c)|]; simpl in *; lia.
Qed.

Lemma len_strip s : len (strip s) <= len s.
Proof.
  unfold len, strip. pose proof (length_rstrip (lstrip s)).
  pose proof (length_lstrip s). lia.
Qed.

Lemma len_nonneg s : 0 <= len s.
Proof. unfold len. lia. Qed.

Lemma len_empty s : len s = 0 -> s = "".
Proof. destruct s; [reflexivity|]. unfold len. simpl. lia. Qed.

(** ** The branches of the loop body *)

Lemma bump_spec n st :
  (let st1 := if n <? key_len_min st then set_min n st else st in
   if n >? key_len_max st1 then set_max n st1 else st1) = bump n st.
Proof.
  destruct st as [db mn mx]. unfold bump, set_min, set_max. simpl.
  destruct (Z.ltb_spec n mn); simpl; rewrite Z.gtb_ltb;
    destruct (Z.ltb_spec mx n); simpl; f_equal; lia.
Qed.

(** A line that ends with [*] sets [key] and the bounds, nothing else. *)
Lemma body_key line key st :
  is_key_line line = true ->
  body line (key, st) = Ok (before "*" line, bump (len (before "*" line)) st).
Proof.
  intros H. unfold body. rewrite (key_line_truthy _ H).
  unfold is_key_line in H. rewrite H, getitem0_split. simpl.
  unfold mret, result_ret. f_equal. f_equal. apply bump_spec.
Qed.

(** Any other line that does not start with [ID_] is skipped. *)
Lemma body_skip line key st :
  is_key_line line = false -> startswith "ID_" line = false ->
  body line (key, st) = Ok (key, st).
Proof.
  unfold is_key_line, body. intros -> ->. now destruct (truthy line).
Qed.

(** An [ID_] line without [=] cannot be unpacked. *)
Lemma body_malformed line key st :
  is_key_line line = false -> startswith "ID_" line = true ->
  contains "=" line = false ->
  body line (key, st) = Err ValueError.
Proof.
  unfold is_key_line, body. intros -> HID Heq.
  destruct line as [|c line]; [discriminate|].
  simpl truthy. cbv iota. rewrite HID. simpl negb. cbv iota.
  now rewrite (split1_without _ _ Heq).
Qed.

(** A product or model line is one INSERT under the trimmed [key]. *)
Lemma body_attr cat value line key st :
  attr_line cat value line ->
  body line (key, st) =
    db ← insert_attr cat (strip key) (strip value) (cursor st);
    mret (key, set_cursor db st).
Proof.
  intros [-> Hk]. unfold is_key_line in Hk. unfold body. rewrite Hk.
  assert (Hs : split1 "=" (attr_name cat +:+ String "=" value) = [attr_name cat; value])
    by (apply split1_cut; now destruct cat).
  rewrite Hs.
  destruct cat; simpl;
    [destruct (insert_products (strip key) (strip value) (cursor st))
    |destruct (insert_models (strip key) (strip value) (cursor st))];
    reflexivity.
Qed.

(** ** What a step does to the store *)

Lemma insert_attr_spec cat k v db :
  insert_attr cat k v db = t ← insert_row k v (table cat db); mret (set_table cat t db).
Proof. now destruct cat. Qed.

Lemma insert_row_Ok {V : Type} k (v : V) t m :
  insert_row k v t = Ok m -> exists m0, t = Some m0 /\ m0 !! k = None /\ m = <[k:=v]> m0.
Proof.
  unfold insert_row. destruct t as [m0|]; [|discriminate].
  destruct (m0 !! k) eqn:E; [discriminate|]. intros [= <-]. eauto.
Qed.

Lemma table_set_table cat cat' t db :
  table cat' (set_table cat t db) = if decide (cat' = cat) then Some t else table cat' db.
Proof. destruct cat, cat'; reflexivity. Qed.

Lemma grows_refl k db : grows k db db.
Proof. split; [reflexivity|]. intros cat. now left. Qed.

Lemma grows_trans k db1 db2 db3 : grows k db1 db2 -> grows k db2 db3 -> grows k db1 db3.
Proof.
  intros [Hl1 H1] [Hl2 H2]. split; [congruence|]. intros cat.
  destruct (H2 cat) as [E2|(t2 & v2 & E2 & N2 & E2')]; [rewrite E2; apply H1|].
  destruct (H1 cat) as [E1|(t1 & v1 & E1 & N1 & E1')].
  - right. exists t2, v2. rewrite <- E1. auto.
  - rewrite E1' in E2. injection E2 as <-. now rewrite lookup_insert_eq in N2.
Qed.

Lemma insert_attr_grows cat k v db db' : insert_attr cat k v db = Ok db' -> grows k db db'.
Proof.
  rewrite insert_attr_spec. intros H. apply bind_Ok in H as (m & H & [= <-]).
  apply insert_row_Ok in H as (m0 & E & N & ->). split; [now destruct cat|].
  intros cat'. rewrite table_set_table. case_decide as Hc; [subst cat'|now left].
  right. eauto.
Qed.

Lemma grows_ready k db db' : grows k db db' -> ready db -> ready db'.
Proof.
  intros [Hl H] (Hp & Hm & Hk). unfold ready. rewrite Hl. split_and!; [| |exact Hk].
  - destruct (H Product) as [E|(t & v & _ & _ & E)]; simpl in E; rewrite E; eauto.
  - destruct (H Model) as [E|(t & v & _ & _ & E)]; simpl in E; rewrite E; eauto.
Qed.

Lemma grows_holds k db db' cat x v : grows k db db' -> holds cat db x v -> holds cat db' x v.
Proof.
  intros [_ H] (t & E & L). destruct (H cat) as [E'|(t0 & v0 & E0 & N & E')].
  - exists t. now rewrite E'.
  - exists (<[k:=v0]> t0). split; [exact E'|].
    assert (t0 = t) as -> by congruence.
    rewrite lookup_insert_ne; [exact L|]. intros ->. congruence.
Qed.

(** Every successful pass through the loop body is one of two steps. *)
Lemma body_Ok line key st key' st' :
  body line (key, st) = Ok (key', st') ->
  (is_key_line line = true /\ key' = before "*" line /\ st' = bump (len key') st) \/
  (is_key_line line = false /\ key' = key /\
   exists db', st' = set_cursor db' st /\ grows (strip key) (cursor st) db').
Proof.
  destruct (is_key_line line) eqn:Hk.
  { rewrite (body_key _ _ _ Hk). intros [= <- <-]. now left. }
  intros H. right. split; [reflexivity|].
  unfold body in H. unfold is_key_line in Hk. rewrite Hk in H.
  destruct (truthy line), (startswith "ID_" line); simpl in H;
    try (injection H as <- <-; split; [reflexivity|];
         exists (cursor st); split; [now destruct st|apply grows_refl]).
  destruct (split1 "=" line) as [|ty [|value [|? ?]]]; try discriminate.
  apply bind_Ok in H as (db1 & H1 & H). apply bind_Ok in H as (db2 & H2 & H).
  injection H as <- <-. split; [reflexivity|]. exists db2. split; [reflexivity|].
  apply grows_trans with db1.
  - destruct (String.eqb ty "ID_PRODUCT_FROM_DATABASE");
      [exact (insert_attr_grows Product _ _ _ _ H1)|].
    injection H1 as <-. apply grows_refl.
  - destruct (String.eqb ty "ID_MODEL_FROM_DATABASE");
      [exact (insert_attr_grows Model _ _ _ _ H2)|].
    injection H2 as <-. apply grows_refl.
Qed.

Lemma grows_holds_inv k db db' cat x v :
  grows k db db' -> holds cat db' x v -> holds cat db x v \/ x = k.
Proof.
  intros [_ H] (t & E & L). destruct (H cat) as [E'|(t0 & v0 & E0 & N & E')].
  - left. exists t. now rewrite <- E'.
  - destruct (decide (x = k)) as [->|Hx]; [now right|left].
    exists t0. split; [exact E0|].
    assert (t = <[k:=v0]> t0) as -> by congruence.
    now rewrite lookup_insert_ne in L.
Qed.

(** ** The loops over the lines and over the files *)

(** A property of [key] and the variables of the run that both kinds of
    step keep is kept by the loop over the lines. *)
Lemma scan_invariant (P : string -> state -> Prop) lines :
  (forall line key st, In line lines -> is_key_line line = true -> P key st ->
     P (before "*" line) (bump (len (before "*" line)) st)) ->
  (forall line key st db, In line lines -> is_key_line line = false -> P key st ->
     grows (strip key) (cursor st) db -> P key (set_cursor db st)) ->
  forall key st key' st',
    P key st -> foldM body lines (key, st) = Ok (key', st') -> P key' st'.
Proof.
  intros Hkey Hrow key st key' st' HP H.
  apply (foldM_invariant (fun ks => P (fst ks) (snd ks)) body lines)
    with (a := (key, st)) (b := (key', st')); [|exact HP|exact H].
  intros line [k1 s1] [k2 s2] Hin HP1 Hb. simpl in *.
  apply body_Ok in Hb as [(Hk & -> & ->)|(Hk & -> & db & -> & Hg)]; eauto.
Qed.

(** The same for the loop over the files, where [key] starts again from
    the empty string in each file. *)
Lemma run_invariant (P : string -> state -> Prop) files :
  (forall key st, P key st -> P "" st) ->
  (forall c line key st, In c files -> In line (file_lines c) ->
     is_key_line line = true -> P key st ->
     P (before "*" line) (bump (len (before "*" line)) st)) ->
  (forall c line key st db, In c files -> In line (file_lines c) ->
     is_key_line line = false -> P key st ->
     grows (strip key) (cursor st) db -> P key (set_cursor db st)) ->
  forall st st', P "" st -> foldM do_file files st = Ok st' -> P "" st'.
Proof.
  intros Hreset Hkey Hrow.
  apply (foldM_invariant (fun st => P "" st) do_file files).
  intros c st st' Hc HP H. unfold do_file in H.
  apply bind_Ok in H as ([k s] & H & [= <-]). simpl.
  apply Hreset with k.
  eapply scan_invariant; [| |exact HP|exact H]; eauto.
Qed.

Lemma scan_key lines key st key' st' :
  foldM body lines (key, st) = Ok (key', st') -> key' = key_from key lines.
Proof.
  revert key st. induction lines as [|line lines IH]; intros key st H; simpl in H.
  - now injection H as <- <-.
  - apply bind_Ok in H as ([k1 s1] & Hb & H). apply IH in H as ->.
    unfold key_from. simpl.
    apply body_Ok in Hb as [(-> & -> & _)|(-> & -> & _)]; reflexivity.
Qed.

Lemma key_from_app key l1 l2 : key_from key (l1 ++ l2) = key_from (key_from key l1) l2.
Proof. apply fold_left_app. Qed.

Lemma key_from_no_key key lines :
  forallb (fun line => negb (is_key_line line)) lines = true -> key_from key lines = key.
Proof.
  induction lines as [|line lines IH]; simpl; [reflexivity|].
  intros [H1 H2]%andb_true_iff. unfold key_from. simpl.
  apply negb_true_iff in H1 as ->. now apply IH.
Qed.

Lemma scan_ready lines key st key' st' :
  ready (cursor st) -> foldM body lines (key, st) = Ok (key', st') -> ready (cursor st').
Proof.
  apply (scan_invariant (fun _ st => ready (cursor st))); [now auto|].
  intros line k s db _ _ Hr Hg. simpl. eapply grows_ready; eauto.
Qed.

Lemma run_ready files st st' :
  ready (cursor st) -> foldM do_file files st = Ok st' -> ready (cursor st').
Proof.
  apply (run_invariant (fun _ st => ready (cursor st))); [now auto|now auto|].
  intros c line k s db _ _ _ Hr Hg. simpl. eapply grows_ready; eauto.
Qed.

Lemma scan_holds cat x v lines key st key' st' :
  holds cat (cursor st) x v -> foldM body lines (key, st) = Ok (key', st') ->
  holds cat (cursor st') x v.
Proof.
  apply (scan_invariant (fun _ st => holds cat (cursor st) x v)); [now auto|].
  intros line k s db _ _ Hr Hg. simpl. eapply grows_holds; eauto.
Qed.

Lemma run_holds cat x v files st st' :
  holds cat (cursor st) x v -> foldM do_file files st = Ok st' ->
  holds cat (cursor st') x v.
Proof.
  apply (run_invariant (fun _ st => holds cat (cursor st) x v)); [now auto|now auto|].
  intros c line k s db _ _ _ Hr Hg. simpl. eapply grows_holds; eauto.
Qed.

(** ** The run as a whole *)

Lemma ready_start : ready (cursor start).
Proof. unfold ready. simpl. eauto. Qed.

(** Whatever was in the output directory, the run is: create the three
    tables in a new store, read the files, write the two bounds. *)
Lemma main_spec hwdb files : main hwdb files = foldM do_file files start ≫= finish.
Proof. destruct hwdb; reflexivity. Qed.

Lemma finish_ready st : ready (cursor st) -> finish st = Ok (committed st).
Proof.
  intros (_ & _ & Hk). unfold finish, insert_key_len, insert_row. rewrite Hk.
  rewrite lookup_empty. simpl.
  rewrite lookup_insert_ne by discriminate. rewrite lookup_empty. reflexivity.
Qed.

(** The run completes exactly when the loop over the files does, and then
    commits the store of the final variables. *)
Lemma main_Ok hwdb files db :
  main hwdb files = Ok db <->
  exists st, foldM do_file files start = Ok st /\ db = committed st.
Proof.
  rewrite main_spec. split.
  - intros H. apply bind_Ok in H as (st & Hrun & H). exists st. split; [exact Hrun|].
    rewrite finish_ready in H by (eapply run_ready; [apply ready_start|exact Hrun]).
    congruence.
  - intros (st & Hrun & ->). rewrite Hrun. simpl.
    apply finish_ready. eapply run_ready; [apply ready_start|exact Hrun].
Qed.

Lemma main_Err hwdb files e :
  foldM do_file files start = Err e -> main hwdb files = Err e.
Proof. rewrite main_spec. now intros ->. Qed.

(** ** The lines of a file *)

Lemma split_without sep s : contains sep s = false -> split sep s = [s].
Proof.
  induction s as [|c s IH]; simpl; [reflexivity|].
  destruct (Ascii.eqb c sep); simpl; [discriminate|].
  intros H. now rewrite IH.
Qed.

Lemma split_app sep a b : split sep (a +:+ String sep b) = (split sep a ++ split sep b)%list.
Proof.
  induction a as [|c a IH]; simpl.
  - now rewrite Ascii.eqb_refl.
  - rewrite IH. destruct (Ascii.eqb c sep); [reflexivity|].
    destruct (split_before sep a) as [tl ->]. reflexivity.
Qed.

Lemma split_unlines l ls :
  split LF (unlines (l :: ls)) = (split LF l ++ concat (map (split LF) ls))%list.
Proof.
  revert l. induction ls as [|l' ls IH]; intros l.
  - simpl. now rewrite app_nil_r.
  - change (unlines (l :: l' :: ls)) with (l +:+ String LF (unlines (l' :: ls))).
    rewrite split_app, IH. reflexivity.
Qed.

Lemma file_lines_unlines ls : file_lines (unlines ls) = concat (map file_lines ls).
Proof.
  destruct ls as [|l ls]; [reflexivity|].
  unfold file_lines at 1. rewrite split_unlines.
  change (split LF l ++ concat (map (split LF) ls))%list
    with (concat (map (split LF) (l :: ls))).
  induction (l :: ls) as [|x xs IH]; [reflexivity|].
  cbn [map concat]. rewrite List.filter_app, List.map_app, IH. reflexivity.
Qed.

Lemma file_lines_none c :
  contains LF c = false -> strip c = "" \/ startswith "#" c = true -> file_lines c = [].
Proof.
  intros Hc H. unfold file_lines. rewrite (split_without _ _ Hc).
  cbn [List.filter]. destruct H as [-> | ->]; [reflexivity|].
  now rewrite andb_false_r.
Qed.

Lemma do_file_lines c c' st : file_lines c = file_lines c' -> do_file c st = do_file c' st.
Proof. unfold do_file. now intros ->. Qed.

Lemma foldM_ext {A B : Type} (f : B -> A -> result A) l1 x y l2 a :
  (forall a', f x a' = f y a') -> foldM f (l1 ++ x :: l2) a = foldM f (l1 ++ y :: l2) a.
Proof.
  intros H. rewrite !foldM_app. destruct (foldM f l1 a); simpl; [|reflexivity].
  now rewrite H.
Qed.

(** ** The example, repeated runs, blank lines and comments *)

(** C1: a run on the single file made of the five lines [ab*],
    [ID_PRODUCT_FROM_DATABASE=Acme Widget], [ID_MODEL_FROM_DATABASE=Widget 2000],
    [abc*], [ID_MODEL_FROM_DATABASE=Widget 3000] (with or without a final
    line feed, and whatever was in the output directory) commits
    products = {("ab", "Acme Widget")},
    models = {("ab", "Widget 2000"), ("abc", "Widget 3000")} and
    key_len = {("min", 2), ("max", 3)}. *)
Theorem C1_example_run (hwdb : option store) :
  let db := {| products := Some {[ "ab" := "Acme Widget" ]};
               models := Some {[ "ab" := "Widget 2000"; "abc" := "Widget 3000" ]};
               key_len := Some {[ "min" := 2; "max" := 3 ]} |} in
  main hwdb [example_input] = Ok db /\
  main hwdb [example_input +:+ String LF ""] = Ok db.
Proof. rewrite !main_spec. split; vm_compute; reflexivity. Qed.

(** C7: the committed tables depend on the contents of the input files
    only: a run gives the same result whether the output directory had no
    hw.db or any hw.db of an earlier run, because the old store is removed
    and the tables are created in a new one; so a second run on the same
    input commits the same tables as the first and no old row survives. *)
Theorem C7_rerun_same_tables (hwdb hwdb' : option store) (files : list string) :
  remove_if_exists hwdb = None /\
  main hwdb files = main hwdb' files.
Proof. rewrite !main_spec. split; [now destruct hwdb|reflexivity]. Qed.

(** C8: a blank line, or a line that starts with [#], at any place of any
    file is not seen by the loop at all: the lines the loop goes over, the
    effect of the file on the store and on the bounds, and the result of
    the whole run are those of the input without this line; so no row comes
    from it, the bounds do not move, and the lines after it find [key] as
    the lines before it left it. *)
Theorem C8_blank_or_comment_is_noop
    (hwdb : option store) (fs1 fs2 : list string) (l1 l2 : list string) (c : string) :
  contains LF c = false ->
  strip c = "" \/ startswith "#" c = true ->
  file_lines (unlines (l1 ++ c :: l2)) = file_lines (unlines (l1 ++ l2)) /\
  (forall st, do_file (unlines (l1 ++ c :: l2)) st = do_file (unlines (l1 ++ l2)) st) /\
  main hwdb (fs1 ++ unlines (l1 ++ c :: l2) :: fs2) =
    main hwdb (fs1 ++ unlines (l1 ++ l2) :: fs2).
Proof.
  intros Hc H.
  assert (E : file_lines (unlines (l1 ++ c :: l2)) = file_lines (unlines (l1 ++ l2))).
  { rewrite !file_lines_unlines, !List.map_app, !concat_app. cbn [map concat].
    now rewrite (file_lines_none c Hc H). }
  split; [exact E|]. split; [intros st; now apply do_file_lines|].
  rewrite !main_spec. f_equal. apply foldM_ext. intros st. now apply do_file_lines.
Qed.

Lemma C8_witness :
  main None [unlines ["ab*"; "# a comment"; "ID_MODEL_FROM_DATABASE=Widget 2000"]] =
  main None [unlines ["ab*"; "ID_MODEL_FROM_DATABASE=Widget 2000"]].
Proof.
  exact (proj2 (proj2 (C8_blank_or_comment_is_noop None [] [] ["ab*"]
    ["ID_MODEL_FROM_DATABASE=Widget 2000"] "# a comment" eq_refl (or_intror eq_refl)))).
Defined.

(** ** Attribute lines *)

Lemma insert_attr_holds cat k v db db' :
  insert_attr cat k v db = Ok db' -> holds cat db' k v.
Proof.
  rewrite insert_attr_spec. intros H. apply bind_Ok in H as (m & H & [= <-]).
  apply insert_row_Ok in H as (m0 & _ & _ & ->).
  exists (<[k:=v]> m0). rewrite table_set_table, decide_True by reflexivity.
  split; [reflexivity|apply lookup_insert_eq].
Qed.

(** The INSERT on a table that has the key already. *)
Lemma insert_attr_dup cat k v v0 db :
  holds cat db k v0 -> insert_attr cat k v db = Err IntegrityError.
Proof.
  intros (t & E & L). rewrite insert_attr_spec. unfold insert_row.
  now rewrite E, L.
Qed.

(** The INSERT on a table that is there. *)
Lemma insert_attr_table cat k v db t :
  table cat db = Some t ->
  insert_attr cat k v db =
    match t !! k with
    | Some _ => Err IntegrityError
    | None => Ok (set_table cat (<[k:=v]> t) db)
    end.
Proof.
  intros E. rewrite insert_attr_spec. unfold insert_row. rewrite E.
  now destruct (t !! k).
Qed.

Lemma scan_attr_holds cat v a l1 l2 key st key' st' :
  attr_line cat v a ->
  foldM body (l1 ++ a :: l2) (key, st) = Ok (key', st') ->
  holds cat (cursor st') (strip (key_from key l1)) (strip v).
Proof.
  intros Ha H. apply foldM_split in H as ([k1 s1] & [k2 s2] & H1 & Hb & H2).
  apply scan_key in H1 as ->. rewrite (body_attr _ _ _ _ _ Ha) in Hb.
  apply bind_Ok in Hb as (db & Hi & [= <- <-]).
  eapply scan_holds; [|exact H2]. simpl. eapply insert_attr_holds, Hi.
Qed.

Lemma run_attr_holds cat v a l1 l2 c fs1 fs2 st st' :
  file_lines c = (l1 ++ a :: l2)%list -> attr_line cat v a ->
  foldM do_file (fs1 ++ c :: fs2) st = Ok st' ->
  holds cat (cursor st') (strip (key_at l1)) (strip v).
Proof.
  intros Hc Ha H. apply foldM_split in H as (s1 & s2 & _ & Hf & H2).
  eapply run_holds; [|exact H2]. unfold do_file in Hf. rewrite Hc in Hf.
  apply bind_Ok in Hf as ([k s] & Hf & [= <-]).
  eapply scan_attr_holds; eauto.
Qed.

Lemma table_committed cat st : table cat (committed st) = table cat (cursor st).
Proof. now destruct cat. Qed.

Lemma holds_committed cat st k v : holds cat (committed st) k v <-> holds cat (cursor st) k v.
Proof. unfold holds. now rewrite table_committed. Qed.

(** A second attribute line of [cat] whose trimmed key is in the table
    already stops the loop over the lines. *)
Lemma scan_dup cat v a l1 l2 k v0 st :
  attr_line cat v a -> holds cat (cursor st) k v0 -> strip (key_at l1) = k ->
  exists e, foldM body (l1 ++ a :: l2) ("", st) = Err e.
Proof.
  intros Ha Hh Hk. apply foldM_raises. intros [k1 s1] H1.
  rewrite (body_attr _ _ _ _ _ Ha).
  pose proof (scan_key _ _ _ _ _ H1) as ->. fold (key_at l1). rewrite Hk.
  erewrite insert_attr_dup; [simpl; eauto|].
  eapply scan_holds; [exact Hh|exact H1].
Qed.

Lemma do_file_Err c st e :
  foldM body (file_lines c) ("", st) = Err e -> do_file c st = Err e.
Proof. unfold do_file. now intros ->. Qed.

(** Two attribute lines of [cat] in one file, under the same trimmed key. *)
Lemma scan_dup_same cat v a v' a' l1 l2a l2b st :
  attr_line cat v a -> attr_line cat v' a' ->
  strip (key_at (l1 ++ a :: l2a)) = strip (key_at l1) ->
  exists e, foldM body (l1 ++ a :: l2a ++ a' :: l2b) ("", st) = Err e.
Proof.
  intros Ha Ha' Hk.
  replace (l1 ++ a :: l2a ++ a' :: l2b)%list with ((l1 ++ a :: l2a) ++ a' :: l2b)%list
    by now rewrite <- app_assoc.
  apply foldM_raises. intros [k s] H.
  rewrite (body_attr _ _ _ _ _ Ha').
  pose proof (scan_key _ _ _ _ _ H) as ->. fold (key_at (l1 ++ a :: l2a)). rewrite Hk.
  erewrite insert_attr_dup; [simpl; eauto|].
  exact (scan_attr_holds cat v a l1 l2a _ _ _ _ Ha H).
Qed.

(** C3 (amended): an attribute line (product or model) is one INSERT into
    its table, under the trimmed [key] of the moment: when the step
    succeeds, the table had no row with this key and now has exactly this
    one more, and a run that completes has this row.  A later line of the
    same category under the same trimmed key, in the same file or in a
    later file, does not overwrite it: the INSERT breaks the primary key and
    the run aborts. *)
Theorem C3_one_row_no_overwrite
    (hwdb : option store) (cat : category) (v a : string) (l1 l2 : list string)
    (c : string) (fs1 fs2 : list string) :
  file_lines c = (l1 ++ a :: l2)%list ->
  attr_line cat v a ->
  (forall key st key' st', body a (key, st) = Ok (key', st') ->
     key' = key /\
     exists t, table cat (cursor st) = Some t /\ t !! strip key = None /\
       st' = set_cursor (set_table cat (<[strip key := strip v]> t) (cursor st)) st) /\
  (forall db, main hwdb (fs1 ++ c :: fs2) = Ok db ->
     holds cat db (strip (key_at l1)) (strip v)) /\
  (forall v' a' l2a l2b, l2 = (l2a ++ a' :: l2b)%list -> attr_line cat v' a' ->
     strip (key_at (l1 ++ a :: l2a)) = strip (key_at l1) ->
     exists e, main hwdb (fs1 ++ c :: fs2) = Err e) /\
  (forall c' fs2a fs2b l1' a' l2' v', fs2 = (fs2a ++ c' :: fs2b)%list ->
     file_lines c' = (l1' ++ a' :: l2')%list -> attr_line cat v' a' ->
     strip (key_at l1') = strip (key_at l1) ->
     exists e, main hwdb (fs1 ++ c :: fs2) = Err e).
Proof.
  intros Hc Ha. split_and!.
  - intros key st key' st' H. rewrite (body_attr _ _ _ _ _ Ha) in H.
    apply bind_Ok in H as (db & H & [= <- <-]). split; [reflexivity|].
    rewrite insert_attr_spec in H. apply bind_Ok in H as (m & H & [= <-]).
    apply insert_row_Ok in H as (m0 & E & N & ->). eauto.
  - intros db (st & H & ->)%main_Ok. apply holds_committed.
    eapply run_attr_holds; eauto.
  - intros v' a' l2a l2b -> Ha' Hk.
    destruct (foldM_raises do_file fs1 c fs2 start) as [e He].
    + intros s1 _. unfold do_file. rewrite Hc.
      destruct (scan_dup_same cat v a v' a' l1 l2a l2b s1 Ha Ha' Hk) as [e ->].
      simpl. eauto.
    + exists e. now apply main_Err.
  - intros c' fs2a fs2b l1' a' l2' v' -> Hc' Ha' Hk.
    replace (fs1 ++ c :: fs2a ++ c' :: fs2b)%list
      with ((fs1 ++ c :: fs2a) ++ c' :: fs2b)%list by now rewrite <- app_assoc.
    destruct (foldM_raises do_file (fs1 ++ c :: fs2a) c' fs2b start) as [e He].
    + intros s Hs.
      pose proof (run_attr_holds cat v a l1 l2 c fs1 fs2a start s Hc Ha Hs) as Hh.
      destruct (scan_dup cat v' a' l1' l2' _ _ s Ha' Hh Hk) as [e He].
      exists e. apply do_file_Err. now rewrite Hc'.
    + exists e. now apply main_Err.
Qed.

Lemma C3_witness :
  exists e,
    main None [unlines ["ab*"; "ID_PRODUCT_FROM_DATABASE=Acme Widget";
                        "ID_PRODUCT_FROM_DATABASE=Other Widget"]] = Err e.
Proof.
  exact (proj1 (proj2 (proj2
    (C3_one_row_no_overwrite None Product "Acme Widget"
       "ID_PRODUCT_FROM_DATABASE=Acme Widget" ["ab*"]
       ["ID_PRODUCT_FROM_DATABASE=Other Widget"]
       (unlines ["ab*"; "ID_PRODUCT_FROM_DATABASE=Acme Widget";
                 "ID_PRODUCT_FROM_DATABASE=Other Widget"]) [] []
       eq_refl (conj eq_refl eq_refl))))
    "Other Widget" "ID_PRODUCT_FROM_DATABASE=Other Widget" [] []
    eq_refl (conj eq_refl eq_refl) eq_refl).
Defined.

(** C3, the claim as it was stated fails: a second product line under the
    key [ab] does not replace the first, the run raises IntegrityError. *)
Lemma C3_counterexample :
  main None [unlines ["ab*"; "ID_PRODUCT_FROM_DATABASE=Acme Widget";
                      "ID_PRODUCT_FROM_DATABASE=Other Widget"]] = Err IntegrityError.
Proof. vm_compute. reflexivity. Qed.

(** C5 (amended): an attribute line that comes before any key line of its
    file raises no parse failure.  [key] is still the empty string there,
    and the line is an INSERT into its table under the empty-string key:
    the row is stored when the table has no row with the empty key yet, and
    only otherwise the INSERT raises (IntegrityError). *)
Theorem C5_attr_before_key_is_stored
    (cat : category) (v a : string) (l1 : list string)
    (st st1 : state) (key : string) (t : gmap string string) :
  forallb (fun line => negb (is_key_line line)) l1 = true ->
  attr_line cat v a ->
  foldM body l1 ("", st) = Ok (key, st1) ->
  table cat (cursor st1) = Some t ->
  key = "" /\
  body a (key, st1) =
    match t !! "" with
    | Some _ => Err IntegrityError
    | None => Ok ("", set_cursor (set_table cat (<["" := strip v]> t) (cursor st1)) st1)
    end.
Proof.
  intros Hl1 Ha H Ht. apply scan_key in H. rewrite (key_from_no_key _ _ Hl1) in H.
  subst key. split; [reflexivity|].
  rewrite (body_attr _ _ _ _ _ Ha). change (strip "") with "".
  rewrite (insert_attr_table _ _ _ _ _ Ht). now destruct (t !! "").
Qed.

Lemma C5_witness :
  body "ID_PRODUCT_FROM_DATABASE=Acme Widget" ("", start) =
  Ok ("", set_cursor (set_table Product (<["" := strip "Acme Widget"]> ∅) (cursor start)) start).
Proof.
  exact (proj2 (C5_attr_before_key_is_stored Product "Acme Widget"
    "ID_PRODUCT_FROM_DATABASE=Acme Widget" ["a line that is no key line"]
    start start "" ∅ eq_refl (conj eq_refl eq_refl) eq_refl eq_refl)).
Defined.

(** C5, the claim as it was stated fails: the file has a product line and
    no key line at all, and the run completes with the row stored under
    the empty key. *)
Lemma C5_counterexample :
  no_key_lines ["ID_PRODUCT_FROM_DATABASE=Acme Widget"] = true /\
  main None ["ID_PRODUCT_FROM_DATABASE=Acme Widget"] =
    Ok {| products := Some {[ "" := "Acme Widget" ]};
          models := Some ∅;
          key_len := Some {[ "min" := 2 ^ 32; "max" := 0 ]} |}.
Proof. split; vm_compute; reflexivity. Qed.

(** C10: [key] starts from the empty string in every file.  Whatever the
    files before it contain (their key lines included), an attribute line
    that has no key line before it in its own file is an INSERT under the
    empty-string key, and a run that completes has its row under the
    empty-string key. *)
Theorem C10_key_reset_per_file
    (hwdb : option store) (fs1 fs2 : list string) (c : string)
    (l1 l2 : list string) (cat : category) (v a : string) :
  file_lines c = (l1 ++ a :: l2)%list ->
  forallb (fun line => negb (is_key_line line)) l1 = true ->
  attr_line cat v a ->
  (forall s0 key s1,
     foldM do_file fs1 start = Ok s0 -> foldM body l1 ("", s0) = Ok (key, s1) ->
     key = "" /\
     body a (key, s1) =
       db ← insert_attr cat "" (strip v) (cursor s1); mret ("", set_cursor db s1)) /\
  (forall db, main hwdb (fs1 ++ c :: fs2) = Ok db -> holds cat db "" (strip v)).
Proof.
  intros Hc Hl1 Ha. split.
  - intros s0 key s1 _ H. apply scan_key in H.
    rewrite (key_from_no_key _ _ Hl1) in H. subst key. split; [reflexivity|].
    now rewrite (body_attr _ _ _ _ _ Ha).
  - intros db (st & H & ->)%main_Ok. apply holds_committed.
    pose proof (run_attr_holds cat v a l1 l2 c fs1 fs2 start st Hc Ha H) as Hh.
    unfold key_at in Hh. now rewrite (key_from_no_key _ _ Hl1) in Hh.
Qed.

Lemma C10_witness :
  holds Model
    {| products := Some ∅;
       models := Some {[ "ab" := "Widget 2000"; "" := "Widget 3000" ]};
       key_len := Some {[ "min" := 2; "max" := 2 ]} |}
    "" "Widget 3000".
Proof.
  apply (proj2 (C10_key_reset_per_file None
    [unlines ["ab*"; "ID_MODEL_FROM_DATABASE=Widget 2000"]] []
    "ID_MODEL_FROM_DATABASE=Widget 3000" [] [] Model "Widget 3000"
    "ID_MODEL_FROM_DATABASE=Widget 3000" eq_refl eq_refl (conj eq_refl eq_refl))).
  vm_compute. reflexivity.
Defined.

(** ** The bounds *)

Lemma holds_empty_db cat s v : ~ holds cat empty_db s v.
Proof. intros (t & E & L). destruct cat; injection E as <-; now rewrite lookup_empty in L. Qed.

(** [max] is at least the length of [key] and of every stored key. *)
Lemma run_max files st :
  foldM do_file files start = Ok st ->
  forall cat s v, holds cat (cursor st) s v -> len s <= key_len_max st.
Proof.
  intros H.
  refine (proj2 (run_invariant
    (fun key st => len key <= key_len_max st /\
       forall cat s v, holds cat (cursor st) s v -> len s <= key_len_max st)
    files _ _ _ start st _ H)).
  - intros key s [Hk Hr]. split; [|exact Hr].
    pose proof (len_nonneg key). change (len "") with 0. lia.
  - intros c line key s _ _ _ [Hk Hr]. simpl. split; [lia|].
    intros cat x v Hh. specialize (Hr cat x v Hh). lia.
  - intros c line key s db _ _ _ [Hk Hr] Hg. simpl. split; [exact Hk|].
    intros cat x v Hh. destruct (grows_holds_inv _ _ _ _ _ _ Hg Hh) as [Hh'| ->].
    + eauto.
    + pose proof (len_strip key). lia.
  - split; [reflexivity|]. intros cat s v Hh. now apply holds_empty_db in Hh.
Qed.

Lemma all_lines_In p files c line :
  all_lines p files = true -> In c files -> In line (file_lines c) -> p line = true.
Proof.
  unfold all_lines. intros H Hc Hl.
  rewrite forallb_forall in H. specialize (H c Hc).
  rewrite forallb_forall in H. exact (H line Hl).
Qed.

(** When no key line has whitespace in front of its [*], [min] is at most
    the length of [key], if a key line set it, and of every stored key
    other than the empty one. *)
Lemma run_min files st :
  keys_trimmed files = true ->
  foldM do_file files start = Ok st ->
  forall cat s v, holds cat (cursor st) s v -> s <> "" -> key_len_min st <= len s.
Proof.
  intros Ht H.
  refine (proj2 (proj2 (run_invariant
    (fun key st => strip key = key /\ (key <> "" -> key_len_min st <= len key) /\
       forall cat s v, holds cat (cursor st) s v -> s <> "" -> key_len_min st <= len s)
    files _ _ _ start st _ H))).
  - intros key s (_ & _ & Hr). split_and!; [reflexivity|congruence|exact Hr].
  - intros c line key s Hc Hl Hk (_ & _ & Hr). simpl. split_and!.
    + pose proof (all_lines_In _ _ _ _ Ht Hc Hl) as Hp. simpl in Hp.
      rewrite Hk in Hp. simpl in Hp. now apply String.eqb_eq in Hp.
    + lia.
    + intros cat x v Hh Hx. specialize (Hr cat x v Hh Hx). lia.
  - intros c line key s db _ _ _ (Hs & Hk & Hr) Hg. simpl. split_and!; [exact Hs|exact Hk|].
    intros cat x v Hh Hx. destruct (grows_holds_inv _ _ _ _ _ _ Hg Hh) as [Hh'| ->].
    + eauto.
    + rewrite Hs in *. auto.
  - split_and!; [reflexivity|congruence|].
    intros cat s v Hh. now apply holds_empty_db in Hh.
Qed.

(** C4 (amended): at the end of every run that completes, key_len has the
    rows (min, mn) and (max, mx), and mx is at least the length of every key
    stored in products and models; when no key line has whitespace in front
    of its [*], mn is at most the length of every stored key other than the
    empty one (the key of the attribute lines that come before the first
    key line of their file). *)
Theorem C4_key_len_bounds (hwdb : option store) (files : list string) (db : store) :
  main hwdb files = Ok db ->
  exists (tk : gmap string Z) (mn mx : Z),
    key_len db = Some tk /\ tk !! "min" = Some mn /\ tk !! "max" = Some mx /\
    (forall cat s v, holds cat db s v -> len s <= mx) /\
    (keys_trimmed files = true ->
     forall cat s v, holds cat db s v -> s <> "" -> mn <= len s).
Proof.
  intros (st & H & ->)%main_Ok.
  exists (<["max" := key_len_max st]> (<["min" := key_len_min st]> ∅)),
    (key_len_min st), (key_len_max st).
  split_and!.
  - reflexivity.
  - rewrite lookup_insert_ne by discriminate. apply lookup_insert_eq.
  - apply lookup_insert_eq.
  - intros cat s v Hh%holds_committed. eapply run_max; eauto.
  - intros Ht cat s v Hh%holds_committed. eapply run_min; eauto.
Qed.

Lemma C4_witness :
  exists (tk : gmap string Z) (mn mx : Z),
    Some {[ "min" := 2; "max" := 3 ]} = Some tk /\
    tk !! "min" = Some mn /\ tk !! "max" = Some mx /\
    (forall cat s v,
       holds cat {| products := Some {[ "ab" := "Acme Widget" ]};
                    models := Some {[ "ab" := "Widget 2000"; "abc" := "Widget 3000" ]};
                    key_len := Some {[ "min" := 2; "max" := 3 ]} |} s v ->
       len s <= mx) /\
    (keys_trimmed [example_input] = true ->
     forall cat s v,
       holds cat {| products := Some {[ "ab" := "Acme Widget" ]};
                    models := Some {[ "ab" := "Widget 2000"; "abc" := "Widget 3000" ]};
                    key_len := Some {[ "min" := 2; "max" := 3 ]} |} s v ->
       s <> "" -> mn <= len s).
Proof.
  apply (C4_key_len_bounds None [example_input]
    {| products := Some {[ "ab" := "Acme Widget" ]};
       models := Some {[ "ab" := "Widget 2000"; "abc" := "Widget 3000" ]};
       key_len := Some {[ "min" := 2; "max" := 3 ]} |}).
  vm_compute. reflexivity.
Defined.

(** C4, the claim as it was stated fails: the run sees the key line [ab*],
    so min = 2, and has stored the product line in front of it under the
    empty key, whose length is 0. *)
Lemma C4_counterexample :
  no_key_lines [unlines ["ID_PRODUCT_FROM_DATABASE=Acme Widget"; "ab*"]] = false /\
  main None [unlines ["ID_PRODUCT_FROM_DATABASE=Acme Widget"; "ab*"]] =
    Ok {| products := Some {[ "" := "Acme Widget" ]};
          models := Some ∅;
          key_len := Some {[ "min" := 2; "max" := 2 ]} |} /\
  ~ (2 <= len "").
Proof. split_and!; [vm_compute; reflexivity..|change (len "") with 0; lia]. Qed.

(** ** Lines that start with [ID_] *)

Lemma rstrip_cons c s : isspace c = false -> rstrip (String c s) = String c (rstrip s).
Proof. intros H. simpl. rewrite H. now destruct (rstrip s). Qed.

Lemma contains_rstrip c s : contains c (rstrip s) = true -> contains c s = true.
Proof.
  induction s as [|a s IH]; simpl; [auto|].
  destruct (rstrip s) as [|b r] eqn:E.
  - destruct (isspace a); simpl; [discriminate|].
    rewrite orb_false_r. intros ->. reflexivity.
  - simpl in *. destruct (Ascii.eqb a c); [reflexivity|]. simpl. exact IH.
Qed.

(** Trimming a raw line that starts with [ID_] keeps the start and adds no [=]. *)
Lemma strip_ID raw :
  startswith "ID_" raw = true ->
  startswith "#" raw = false /\ truthy (strip raw) = true /\
  startswith "ID_" (strip raw) = true /\
  (contains "=" raw = false -> contains "=" (strip raw) = false).
Proof.
  destruct raw as [|a [|b [|c r]]]; try discriminate.
  { simpl. now rewrite andb_false_r. }
  { simpl. now rewrite !andb_false_r. }
  intros H. cbn [startswith] in H.
  apply andb_true_iff in H as [Ha H]. apply andb_true_iff in H as [Hb H].
  apply andb_true_iff in H as [Hc _].
  apply Ascii.eqb_eq in Ha as <-, Hb as <-, Hc as <-.
  assert (E : strip (String "I" (String "D" (String "_" r))) =
              String "I" (String "D" (String "_" (rstrip r)))).
  { unfold strip. cbn [lstrip]. change (isspace "I") with false. cbv iota.
    now rewrite !rstrip_cons. }
  rewrite E. split_and!; try reflexivity.
  intros Hn. destruct (contains "=" (String "I" (String "D" (String "_" (rstrip r))))) eqn:Hs;
    [|reflexivity].
  rewrite <- E in Hs. unfold strip in Hs. apply contains_rstrip in Hs.
  cbn [lstrip] in Hs. change (isspace "I") with false in Hs. cbv iota in Hs. congruence.
Qed.

Lemma file_lines_In raw c :
  In raw (split LF c) -> truthy (strip raw) = true -> startswith "#" raw = false ->
  In (strip raw) (file_lines c).
Proof.
  intros Hin Ht Hh. unfold file_lines. apply in_map, List.filter_In.
  split; [exact Hin|]. now rewrite Ht, Hh.
Qed.

Lemma insert_row_not_ValueError {V : Type} k (v : V) t : insert_row k v t <> Err ValueError.
Proof. unfold insert_row. destruct t as [m|]; [destruct (m !! k)|]; discriminate. Qed.

Lemma insert_attr_not_ValueError cat k v db : insert_attr cat k v db <> Err ValueError.
Proof.
  rewrite insert_attr_spec. pose proof (insert_row_not_ValueError k v (table cat db)).
  destruct (insert_row k v (table cat db)) as [m|e]; simpl; [discriminate|congruence].
Qed.

(** C6 (amended): a line of an input file that starts with [ID_], has no
    [=] and, trimmed, does not end with [*] cannot be unpacked: the step
    raises ValueError and the run aborts.  A line that has an [=] never
    raises this error. *)
Theorem C6_missing_equals_is_fatal :
  (forall (hwdb : option store) (fs1 fs2 : list string) (c raw : string),
     In raw (split LF c) ->
     startswith "ID_" raw = true ->
     contains "=" raw = false ->
     is_key_line (strip raw) = false ->
     In (strip raw) (file_lines c) /\
     (forall ks, body (strip raw) ks = Err ValueError) /\
     exists e, main hwdb (fs1 ++ c :: fs2) = Err e) /\
  (forall (line : string) (ks : string * state),
     contains "=" line = true -> body line ks <> Err ValueError).
Proof.
  split.
  - intros hwdb fs1 fs2 c raw Hin HID Heq Hk.
    destruct (strip_ID raw HID) as (Hh & Ht & HID' & Heq').
    pose proof (file_lines_In raw c Hin Ht Hh) as Hl.
    assert (Hb : forall ks, body (strip raw) ks = Err ValueError).
    { intros [key st]. apply body_malformed; auto. }
    split_and!; [exact Hl|exact Hb|].
    apply in_split in Hl as (l1 & l2 & Hl).
    destruct (foldM_raises do_file fs1 c fs2 start) as [e He].
    + intros s1 _. destruct (foldM_raises body l1 (strip raw) l2 ("", s1)) as [e He].
      * intros ks _. rewrite Hb. eauto.
      * exists e. apply do_file_Err. now rewrite Hl.
    + exists e. now apply main_Err.
  - intros line [key st] Heq. destruct (is_key_line line) eqn:Hk.
    { now rewrite (body_key _ _ _ Hk). }
    destruct (startswith "ID_" line) eqn:HID.
    2:{ now rewrite (body_skip _ _ _ Hk HID). }
    destruct (split1_with _ _ Heq) as (ty & value & Hs).
    unfold body. unfold is_key_line in Hk. rewrite Hk, HID, Hs.
    destruct (truthy line); [|discriminate]. simpl negb. cbv iota.
    assert (Hmod : forall db,
      (db ← (if String.eqb ty "ID_MODEL_FROM_DATABASE"
             then insert_models (strip key) (strip value) db else mret db);
       mret (key, set_cursor db st)) <> Err ValueError).
    { intros db. destruct (String.eqb ty "ID_MODEL_FROM_DATABASE"); [|discriminate].
      pose proof (insert_attr_not_ValueError Model (strip key) (strip value) db) as HM.
      simpl in HM. destruct (insert_models (strip key) (strip value) db);
        [discriminate|simpl; congruence]. }
    destruct (String.eqb ty "ID_PRODUCT_FROM_DATABASE"); [|apply Hmod].
    pose proof (insert_attr_not_ValueError Product (strip key) (strip value) (cursor st)) as HP.
    simpl in HP. destruct (insert_products (strip key) (strip value) (cursor st)) as [db|e];
      [apply Hmod|simpl; congruence].
Qed.

Lemma C6_witness : exists e, main None ["ID_VENDOR_FROM_DATABASE"] = Err e.
Proof.
  exact (proj2 (proj2 (proj1 C6_missing_equals_is_fatal None [] []
    "ID_VENDOR_FROM_DATABASE" "ID_VENDOR_FROM_DATABASE"
    (or_introl eq_refl) eq_refl eq_refl eq_refl))).
Defined.

(** C6, the claim as it was stated fails: the line [ID_X*] starts with
    [ID_] and has no [=], but it ends with [*], so it is a key line and the
    run completes. *)
Lemma C6_counterexample :
  startswith "ID_" "ID_X*" = true /\ contains "=" "ID_X*" = false /\
  main None ["ID_X*"] =
    Ok {| products := Some ∅; models := Some ∅;
          key_len := Some {[ "min" := 4; "max" := 4 ]} |}.
Proof. split_and!; vm_compute; reflexivity. Qed.

(** ** Runs without a key line *)

Lemma body_ID line key st ty value :
  is_key_line line = false -> startswith "ID_" line = true ->
  split1 "=" line = [ty; value] ->
  body line (key, st) =
    db ← (if String.eqb ty "ID_PRODUCT_FROM_DATABASE"
          then insert_attr Product (strip key) (strip value) (cursor st)
          else mret (cursor st));
    db ← (if String.eqb ty "ID_MODEL_FROM_DATABASE"
          then insert_attr Model (strip key) (strip value) db
          else mret db);
    mret (key, set_cursor db st).
Proof.
  unfold is_key_line, body. intros -> HID ->.
  destruct line; [discriminate|]. now rewrite HID.
Qed.

Lemma cond_insert cat (b : bool) v db n t :
  table cat db = Some t -> takes (if b then S n else n) t ->
  exists db',
    (if b then insert_attr cat "" v db else mret db) = Ok db' /\
    (exists t', table cat db' = Some t' /\ takes n t') /\
    (forall cat', cat' <> cat -> table cat' db' = table cat' db).
Proof.
  intros Ht Hn. destruct b.
  - destruct Hn as [Hn|[Hn Hl]]; [discriminate|].
    rewrite (insert_attr_table _ _ _ _ _ Ht), Hl. eexists. split; [reflexivity|]. split.
    + exists (<["":=v]> t). rewrite table_set_table, decide_True by reflexivity.
      split; [reflexivity|]. left. lia.
    + intros cat' Hc. now rewrite table_set_table, decide_False.
  - exists db. eauto.
Qed.

Lemma step_completes line rest st :
  is_key_line line = false -> unpackable line = true ->
  can_take (line :: rest) st ->
  exists st', body line ("", st) = Ok ("", st') /\ can_take rest st'.
Proof.
  intros Hk Hu Hc. unfold unpackable in Hu. rewrite Hk in Hu. cbn [orb] in Hu.
  assert (Hr : forall cat, inserts_of cat (line :: rest) =
                 if reaches cat line then S (inserts_of cat rest) else inserts_of cat rest).
  { intros cat. unfold inserts_of. cbn [List.filter]. now destruct (reaches cat line). }
  destruct (startswith "ID_" line) eqn:HID.
  2:{ exists st. rewrite (body_skip _ _ _ Hk HID). split; [reflexivity|].
      intros cat. destruct (Hc cat) as (t & Ht & Hn). exists t. split; [exact Ht|].
      rewrite Hr in Hn. unfold reaches in Hn. now rewrite HID, andb_false_r in Hn. }
  cbn [negb orb] in Hu.
  destruct (split1_with _ _ Hu) as (ty & value & Hs).
  rewrite (body_ID _ _ _ _ _ Hk HID Hs). change (strip "") with "".
  assert (Hre : forall cat, reaches cat line = String.eqb ty (attr_name cat)).
  { intros cat. unfold reaches. now rewrite Hk, HID, Hs. }
  destruct (Hc Product) as (tp & Htp & Hnp). rewrite Hr, Hre in Hnp. cbn [attr_name] in Hnp.
  destruct (cond_insert Product _ (strip value) _ _ _ Htp Hnp) as (db1 & -> & Hp1 & Ho1).
  destruct (Hc Model) as (tm & Htm & Hnm). rewrite Hr, Hre in Hnm. cbn [attr_name] in Hnm.
  rewrite <- (Ho1 Model) in Htm by discriminate.
  destruct (cond_insert Model _ (strip value) _ _ _ Htm Hnm) as (db2 & E2 & Hm2 & Ho2).
  simpl. simpl in E2. rewrite E2. simpl. eexists. split; [reflexivity|].
  intros [|]; simpl; [|exact Hm2].
  change (products db2) with (table Product db2). rewrite Ho2 by discriminate. exact Hp1.
Qed.

Lemma scan_completes lines rest st :
  forallb (fun line => negb (is_key_line line)) lines = true ->
  forallb unpackable lines = true ->
  can_take (lines ++ rest) st ->
  exists st', foldM body lines ("", st) = Ok ("", st') /\ can_take rest st'.
Proof.
  revert st. induction lines as [|line lines IH]; intros st Hk Hu Hc;
    cbn [foldM forallb app] in *.
  - eauto.
  - apply andb_true_iff in Hk as [Hk1 Hk]. apply andb_true_iff in Hu as [Hu1 Hu].
    apply negb_true_iff in Hk1.
    destruct (step_completes _ _ _ Hk1 Hu1 Hc) as (st1 & -> & Hc1).
    cbn [mbind result_bind]. now apply IH.
Qed.

Lemma run_completes files st :
  no_key_lines files = true -> all_lines unpackable files = true ->
  can_take (concat (map file_lines files)) st ->
  exists st', foldM do_file files st = Ok st'.
Proof.
  unfold no_key_lines, all_lines.
  revert st. induction files as [|c files IH]; intros st Hk Hu Hc;
    cbn [foldM forallb map concat] in *.
  - eauto.
  - apply andb_true_iff in Hk as [Hk1 Hk]. apply andb_true_iff in Hu as [Hu1 Hu].
    destruct (scan_completes _ _ _ Hk1 Hu1 Hc) as (st1 & H1 & Hc1).
    unfold do_file. rewrite H1. cbn [mbind result_bind mret result_ret snd].
    now apply IH.
Qed.

(** Without a key line the bounds stay as they were initialised. *)
Lemma run_no_key files st :
  no_key_lines files = true -> foldM do_file files start = Ok st ->
  key_len_min st = 2 ^ 32 /\ key_len_max st = 0.
Proof.
  intros Hk H.
  refine (run_invariant (fun _ st => key_len_min st = 2 ^ 32 /\ key_len_max st = 0)
    files _ _ _ start st _ H); [auto| |auto|split; reflexivity].
  intros c line key s Hc Hl Hkl _.
  pose proof (all_lines_In _ _ _ _ Hk Hc Hl) as Hn. simpl in Hn.
  rewrite Hkl in Hn. discriminate.
Qed.

Lemma can_take_start lines :
  (forall cat, (inserts_of cat lines <= 1)%nat) -> can_take lines start.
Proof.
  intros H cat. exists ∅. split; [now destruct cat|].
  right. split; [apply H|apply lookup_empty].
Qed.

(** C9 (amended): when no file has a key line, the bounds are never
    touched: every run that completes writes the key_len rows (min, 2^32)
    and (max, 0), the stored min above the stored max; and the run does
    complete when no attribute line aborts it, that is when every [ID_]
    line has an [=] and at most one product line and at most one model line
    occur (all of them are stored under the empty key). *)
Theorem C9_no_key_line_keeps_sentinels (hwdb : option store) (files : list string) :
  no_key_lines files = true ->
  (forall db, main hwdb files = Ok db ->
     key_len db = Some {[ "min" := 2 ^ 32; "max" := 0 ]} /\ 0 < 2 ^ 32) /\
  (all_lines unpackable files = true ->
   (inserts Product files <= 1)%nat -> (inserts Model files <= 1)%nat ->
   exists db, main hwdb files = Ok db /\
     key_len db = Some {[ "min" := 2 ^ 32; "max" := 0 ]}).
Proof.
  intros Hk.
  assert (Hrows : forall st, foldM do_file files start = Ok st ->
            key_len (committed st) = Some {[ "min" := 2 ^ 32; "max" := 0 ]}).
  { intros st H. destruct (run_no_key _ _ Hk H) as [Hmin Hmax].
    unfold committed. cbn [key_len]. rewrite Hmin, Hmax. reflexivity. }
  split.
  - intros db (st & H & ->)%main_Ok. split; [now apply Hrows|reflexivity].
  - intros Hu HP HM.
    destruct (run_completes files start Hk Hu) as [st H].
    { apply can_take_start. now intros [|]. }
    exists (committed st). split; [|now apply Hrows].
    apply main_Ok. eauto.
Qed.

Lemma C9_witness :
  exists db,
    main None ["# no key line here"; "ID_PRODUCT_FROM_DATABASE=Acme Widget"] = Ok db /\
    key_len db = Some {[ "min" := 2 ^ 32; "max" := 0 ]}.
Proof.
  exact (proj2 (C9_no_key_line_keeps_sentinels None
    ["# no key line here"; "ID_PRODUCT_FROM_DATABASE=Acme Widget"] eq_refl)
    eq_refl (le_n 1) (le_S 0 0 (le_n 0))).
Defined.

(** C9, the claim as it was stated fails: neither input has a key line, and
    neither run completes; the first stops at an [ID_] line without [=],
    the second at the second row under the empty key. *)
Lemma C9_counterexample :
  no_key_lines ["ID_VENDOR_FROM_DATABASE"] = true /\
  main None ["ID_VENDOR_FROM_DATABASE"] = Err ValueError /\
  no_key_lines [unlines ["ID_MODEL_FROM_DATABASE=Widget 2000";
                         "ID_MODEL_FROM_DATABASE=Widget 3000"]] = true /\
  main None [unlines ["ID_MODEL_FROM_DATABASE=Widget 2000";
                      "ID_MODEL_FROM_DATABASE=Widget 3000"]] = Err IntegrityError.
Proof. split_and!; vm_compute; reflexivity. Qed.

(** ** Key lines with whitespace in front of the [*] *)

(** C2: on the key line [ab *] the code sets [key] to the text in front of
    the first [*] as it stands, ["ab "], and moves the bounds by its length
    3, although the rows of the attribute lines under it get the trimmed key
    ["ab"], of length 2: the run commits min = max = 3 beside a stored key
    of length 2. *)
Theorem C2_bounds_use_untrimmed_key :
  body "ab *" ("", start) = Ok ("ab ", bump 3 start) /\
  len (strip "ab ") = 2 /\
  main None [unlines ["ab *"; "ID_PRODUCT_FROM_DATABASE=Acme Widget"]] =
    Ok {| products := Some {[ "ab" := "Acme Widget" ]};
          models := Some ∅;
          key_len := Some {[ "min" := 3; "max" := 3 ]} |}.
Proof. split_and!; [apply (body_key "ab *" "" start eq_refl)|reflexivity|vm_compute; reflexivity]. Qed.

(** * Further properties of the script *)

(** ** The kinds of lines *)

Lemma split1_join sep s p v :
  split1 sep s = [p; v] -> s = p +:+ String sep v /\ contains sep p = false.
Proof.
  revert p. induction s as [|c s IH]; intros p; simpl; [discriminate|].
  destruct (Ascii.eqb c sep) eqn:E.
  - apply Ascii.eqb_eq in E as ->. intros [= <- <-]. now split.
  - destruct (split1 sep s) as [|x xs]; [discriminate|].
    intros [= <- ->]. destruct (IH x eq_refl) as [-> Hc]. simpl. now rewrite E, Hc.
Qed.

Lemma reaches_attr_line cat line :
  reaches cat line = true -> exists value, attr_line cat value line.
Proof.
  unfold reaches. intros H. apply andb_true_iff in H as [H Hs].
  apply andb_true_iff in H as [Hk _]. apply negb_true_iff in Hk.
  destruct (split1 "=" line) as [|ty [|value [|? ?]]] eqn:E; try discriminate.
  apply String.eqb_eq in Hs as ->. apply split1_join in E as [-> _].
  exists value. now split.
Qed.

Lemma attr_line_reaches cat cat' value line :
  attr_line cat value line -> reaches cat' line = bool_decide (cat' = cat).
Proof.
  intros [-> Hk]. unfold reaches. rewrite Hk.
  rewrite split1_cut by now destruct cat.
  now destruct cat, cat'.
Qed.

Lemma ignored_reaches line cat : ignored line -> reaches cat line = false.
Proof.
  intros [Hk [HID|(ty & value & Hs & HP & HM)]]; unfold reaches.
  - now rewrite HID, andb_false_r.
  - rewrite Hs. apply andb_false_iff. right. apply String.eqb_neq.
    now destruct cat.
Qed.

(** Every line is of exactly one of four kinds. *)
Lemma line_cases line :
  is_key_line line = true \/
  (is_key_line line = false /\ unpackable line = false) \/
  (exists cat value, attr_line cat value line) \/
  ignored line.
Proof.
  destruct (is_key_line line) eqn:Hk; [now left|right].
  destruct (unpackable line) eqn:Hu; [right|now left].
  destruct (reaches Product line) eqn:HP.
  { left. exists Product. now apply reaches_attr_line. }
  destruct (reaches Model line) eqn:HM.
  { left. exists Model. now apply reaches_attr_line. }
  right. split; [exact Hk|].
  unfold unpackable in Hu. rewrite Hk in Hu. cbn [orb] in Hu.
  destruct (startswith "ID_" line) eqn:HID; [right|now left].
  cbn [negb orb] in Hu. destruct (split1_with _ _ Hu) as (ty & value & Hs).
  exists ty, value. split; [exact Hs|].
  unfold reaches in HP, HM. rewrite Hk, HID, Hs in HP, HM. cbn [negb andb] in HP, HM.
  split; intros ->; discriminate.
Qed.

Lemma body_ignored line ks : ignored line -> body line ks = Ok ks.
Proof.
  destruct ks as [key st]. intros [Hk [HID|(ty & value & Hs & HP & HM)]].
  - now apply body_skip.
  - destruct (startswith "ID_" line) eqn:HID; [|now apply body_skip].
    rewrite (body_ID _ _ _ _ _ Hk HID Hs).
    apply String.eqb_neq in HP as ->, HM as ->. now destruct st.
Qed.

Lemma body_unpack line key st :
  is_key_line line = false -> unpackable line = false ->
  body line (key, st) = Err ValueError.
Proof.
  intros Hk Hu. unfold unpackable in Hu. rewrite Hk in Hu. cbn [orb] in Hu.
  apply orb_false_iff in Hu as [HID Heq]. apply negb_false_iff in HID.
  now apply body_malformed.
Qed.

(** X1: a line that is no key line and either does not start with [ID_]
    or is an attribute [ty=value] with another name than the two that are
    stored is skipped: the step leaves [key], the bounds and the store as
    they are, and the file and the run are those of the input without the
    line. *)
Theorem other_lines_are_skipped
    (hwdb : option store) (fs1 fs2 : list string) (c c' : string)
    (l1 l2 : list string) (x : string) :
  file_lines c = (l1 ++ x :: l2)%list ->
  file_lines c' = (l1 ++ l2)%list ->
  ignored x ->
  (forall ks, body x ks = Ok ks) /\
  (forall st, do_file c st = do_file c' st) /\
  main hwdb (fs1 ++ c :: fs2) = main hwdb (fs1 ++ c' :: fs2).
Proof.
  intros Hc Hc' Hx.
  assert (Hd : forall st, do_file c st = do_file c' st).
  { intros st. unfold do_file. rewrite Hc, Hc', !foldM_app.
    destruct (foldM body l1 ("", st)) as [ks|e]; [|reflexivity].
    cbn [mbind result_bind foldM]. now rewrite (body_ignored _ _ Hx). }
  split_and!; [intros ks; now apply body_ignored|exact Hd|].
  rewrite !main_spec. f_equal. now apply foldM_ext.
Qed.

Lemma other_lines_are_skipped_witness :
  main None [unlines ["ab*"; "ID_VENDOR_FROM_DATABASE=Acme"; "ID_MODEL_FROM_DATABASE=Widget"]] =
  main None [unlines ["ab*"; "ID_MODEL_FROM_DATABASE=Widget"]].
Proof.
  refine (proj2 (proj2 (other_lines_are_skipped None [] []
    (unlines ["ab*"; "ID_VENDOR_FROM_DATABASE=Acme"; "ID_MODEL_FROM_DATABASE=Widget"])
    (unlines ["ab*"; "ID_MODEL_FROM_DATABASE=Widget"])
    ["ab*"] ["ID_MODEL_FROM_DATABASE=Widget"] "ID_VENDOR_FROM_DATABASE=Acme"
    eq_refl eq_refl (conj eq_refl (or_intror _))))).
  exists "ID_VENDOR_FROM_DATABASE", "Acme". split_and!; [reflexivity|discriminate..].
Defined.

(** ** More on the string methods *)

Lemma before_without sep s : contains sep (before sep s) = false.
Proof.
  induction s as [|c s IH]; simpl; [reflexivity|].
  destruct (Ascii.eqb c sep) eqn:E; simpl; [reflexivity|]. now rewrite E.
Qed.

Lemma before_cut sep s :
  contains sep s = true -> exists rest, s = before sep s +:+ String sep rest.
Proof.
  induction s as [|c s IH]; simpl; [discriminate|].
  destruct (Ascii.eqb c sep) eqn:E; simpl.
  - apply Ascii.eqb_eq in E as ->. eauto.
  - intros H. destruct (IH H) as [rest Hr]. exists rest.
    change (String c s = String c (before sep s +:+ String sep rest)).
    now rewrite <- Hr.
Qed.

Lemma length_append a b : String.length (a +:+ b) = (String.length a + String.length b)%nat.
Proof. induction a as [|c a IH]; simpl; [reflexivity|]. now rewrite IH. Qed.

Lemma endswith_contains c s : endswith (String c "") s = true -> contains c s = true.
Proof.
  induction s as [|a s IH]; simpl; [discriminate|].
  intros [H|H]%orb_true_iff.
  - destruct (Ascii.eqb c a) eqn:E; [|discriminate].
    apply Ascii.eqb_eq in E as ->. now rewrite Ascii.eqb_refl.
  - rewrite (IH H). apply orb_true_r.
Qed.

Lemma lstrip_idem s : lstrip (lstrip s) = lstrip s.
Proof.
  induction s as [|c s IH]; simpl; [reflexivity|].
  destruct (isspace c) eqn:E; [exact IH|]. simpl. now rewrite E.
Qed.

Lemma rstrip_idem s : rstrip (rstrip s) = rstrip s.
Proof.
  induction s as [|c s IH]; simpl; [reflexivity|].
  destruct (rstrip s) as [|b r] eqn:E.
  - destruct (isspace c) eqn:Ec; [reflexivity|]. simpl. now rewrite Ec.
  - change (rstrip (String c (String b r))) with
      (match rstrip (String b r) with
       | "" => if isspace c then "" else String c ""
       | r' => String c r'
       end).
    now rewrite IH.
Qed.

Lemma lstrip_rstrip s : lstrip s = s -> lstrip (rstrip s) = rstrip s.
Proof.
  destruct s as [|c s]; [reflexivity|]. simpl lstrip at 1.
  destruct (isspace c) eqn:E.
  - intros H. pose proof (length_lstrip s) as Hl. rewrite H in Hl. simpl in Hl. lia.
  - intros _. rewrite (rstrip_cons _ _ E). simpl. now rewrite E.
Qed.

(** [s.strip()] is trimmed. *)
Lemma strip_idem s : strip (strip s) = strip s.
Proof.
  unfold strip. rewrite (lstrip_rstrip (lstrip s)) by apply lstrip_idem.
  apply rstrip_idem.
Qed.

Lemma contains_lstrip c s : contains c (lstrip s) = true -> contains c s = true.
Proof.
  induction s as [|a s IH]; simpl; [auto|].
  destruct (isspace a); [|auto]. intros H. rewrite (IH H). apply orb_true_r.
Qed.

Lemma contains_strip c s : contains c s = false -> contains c (strip s) = false.
Proof.
  intros H. destruct (contains c (strip s)) eqn:E; [|reflexivity].
  unfold strip in E. apply contains_rstrip, contains_lstrip in E. congruence.
Qed.

Lemma split_pieces sep s x : In x (split sep s) -> contains sep x = false.
Proof.
  revert x. induction s as [|c s IH]; intros x; simpl.
  - now intros [<-|[]].
  - destruct (Ascii.eqb c sep) eqn:E.
    + intros [<-|H]; [reflexivity|now apply IH].
    + destruct (split sep s) as [|y ys]; [now intros [<-|[]]; simpl; rewrite E|].
      intros [<-|H].
      * simpl. rewrite E. apply IH. now left.
      * apply IH. now right.
Qed.

(** ** Key lines *)

(** X2: on a line that ends with [*], whatever [key] was, the step sets
    [key] to the text in front of the first [*] of the line, lowers min and
    raises max to the length of that text, and leaves the store alone; the
    new [key] has no [*] in it and is strictly shorter than the line. *)
Theorem key_line_step (line key : string) (st : state) :
  is_key_line line = true ->
  body line (key, st) =
    Ok (before "*" line,
        {| cursor := cursor st;
           key_len_min := Z.min (key_len_min st) (len (before "*" line));
           key_len_max := Z.max (key_len_max st) (len (before "*" line)) |}) /\
  contains "*" (before "*" line) = false /\
  (exists rest, line = before "*" line +:+ String "*" rest) /\
  len (before "*" line) < len line.
Proof.
  intros Hk. split_and!.
  - now rewrite (body_key _ _ _ Hk).
  - apply before_without.
  - apply before_cut, endswith_contains, Hk.
  - destruct (before_cut "*" line (endswith_contains _ _ Hk)) as [rest Hr].
    unfold len. rewrite Hr at 2. rewrite length_append. simpl. lia.
Qed.

Lemma key_line_step_witness :
  body "usb:v1D6B*p0002*" ("old", start) =
    Ok ("usb:v1D6B",
        {| cursor := cursor start;
           key_len_min := Z.min (key_len_min start) (len "usb:v1D6B");
           key_len_max := Z.max (key_len_max start) (len "usb:v1D6B") |}).
Proof. exact (proj1 (key_line_step "usb:v1D6B*p0002*" "old" start eq_refl)). Defined.

(** ** The lines the loop sees *)

(** X10: every line the loop goes over is non-empty (so the test
    [if line:] never fails), has no whitespace at either end and no line
    feed in it, and is the trimmed form of a piece of the contents between
    line feeds that does not itself start with [#]. *)
Theorem lines_seen_by_the_loop (c line : string) :
  In line (file_lines c) ->
  truthy line = true /\ trimmed line /\ contains LF line = false /\
  exists raw, In raw (split LF c) /\ line = strip raw /\ startswith "#" raw = false.
Proof.
  unfold file_lines. intros (raw & <- & H)%in_map_iff.
  apply List.filter_In in H as [Hin H]. apply andb_true_iff in H as [Ht Hh].
  apply negb_true_iff in Hh. split_and!.
  - exact Ht.
  - apply strip_idem.
  - apply contains_strip. eapply split_pieces, Hin.
  - eauto.
Qed.

Lemma lines_seen_by_the_loop_witness :
  truthy "ID_MODEL_FROM_DATABASE=Widget" = true /\
  trimmed "ID_MODEL_FROM_DATABASE=Widget" /\
  contains LF "ID_MODEL_FROM_DATABASE=Widget" = false /\
  exists raw,
    In raw (split LF (unlines ["ab*"; " ID_MODEL_FROM_DATABASE=Widget  "])) /\
    "ID_MODEL_FROM_DATABASE=Widget" = strip raw /\ startswith "#" raw = false.
Proof.
  exact (lines_seen_by_the_loop (unlines ["ab*"; " ID_MODEL_FROM_DATABASE=Widget  "])
    "ID_MODEL_FROM_DATABASE=Widget" (or_intror (or_introl eq_refl))).
Defined.

(** X11: splitting at the line feeds gives back the lines that were joined
    with line feeds, when there is at least one line and no line has a line
    feed in it. *)
Theorem split_unlines_lines (ls : list string) :
  ls <> [] ->
  Forall (fun l => contains LF l = false) ls ->
  split LF (unlines ls) = ls.
Proof.
  destruct ls as [|l ls]; [congruence|]. intros _ H.
  rewrite split_unlines. inversion H as [|? ? Hl Hls]; subst.
  rewrite (split_without _ _ Hl). cbn [app]. f_equal. clear H Hl.
  induction Hls as [|x xs Hx _ IH]; [reflexivity|].
  cbn [map concat]. now rewrite (split_without _ _ Hx), IH.
Qed.

Lemma split_unlines_lines_witness :
  split LF (unlines ["ab*"; ""; "# x"]) = ["ab*"; ""; "# x"].
Proof.
  refine (split_unlines_lines ["ab*"; ""; "# x"] _ _); [discriminate|].
  repeat constructor.
Defined.

(** ** The bounds, exactly *)

Lemma committed_rows st :
  key_len (committed st) = Some {[ "min" := key_len_min st; "max" := key_len_max st ]}.
Proof. reflexivity. Qed.

Lemma key_lengths_app l1 l2 : key_lengths (l1 ++ l2) = (key_lengths l1 ++ key_lengths l2)%list.
Proof. unfold key_lengths. now rewrite List.filter_app, List.map_app. Qed.

Lemma key_lengths_cons line lines :
  key_lengths (line :: lines) =
    if is_key_line line then len (before "*" line) :: key_lengths lines
    else key_lengths lines.
Proof. unfold key_lengths. cbn [List.filter]. now destruct (is_key_line line). Qed.

Lemma scan_bounds lines key st key' st' :
  foldM body lines (key, st) = Ok (key', st') ->
  key_len_min st' = fold_left Z.min (key_lengths lines) (key_len_min st) /\
  key_len_max st' = fold_left Z.max (key_lengths lines) (key_len_max st).
Proof.
  revert key st. induction lines as [|line lines IH]; intros key st H; cbn [foldM] in H.
  - now injection H as <- <-.
  - apply bind_Ok in H as ([k1 s1] & Hb & H). apply IH in H as [-> ->].
    rewrite key_lengths_cons.
    apply body_Ok in Hb as [(-> & -> & ->)|(-> & -> & db & -> & _)]; now split.
Qed.

Lemma run_bounds files st st' :
  foldM do_file files st = Ok st' ->
  key_len_min st' = fold_left Z.min (key_lengths (lines_of files)) (key_len_min st) /\
  key_len_max st' = fold_left Z.max (key_lengths (lines_of files)) (key_len_max st).
Proof.
  revert st. induction files as [|c files IH]; intros st H; cbn [foldM] in H.
  - now injection H as <-.
  - apply bind_Ok in H as (s1 & Hf & H). apply IH in H as [-> ->].
    unfold do_file in Hf. apply bind_Ok in Hf as ([k s] & Hf & [= <-]).
    apply scan_bounds in Hf as [-> ->].
    unfold lines_of. cbn [map concat]. fold (lines_of files).
    now rewrite key_lengths_app, !fold_left_app.
Qed.

Lemma fold_min_le l a : fold_left Z.min l a <= a /\ forall x, In x l -> fold_left Z.min l a <= x.
Proof.
  revert a. induction l as [|y l IH]; intros a; simpl; [split; [lia|tauto]|].
  destruct (IH (Z.min a y)) as [H1 H2]. split; [lia|].
  intros x [<-|Hx]; [lia|auto].
Qed.

Lemma fold_max_ge l a : a <= fold_left Z.max l a /\ forall x, In x l -> x <= fold_left Z.max l a.
Proof.
  revert a. induction l as [|y l IH]; intros a; simpl; [split; [lia|tauto]|].
  destruct (IH (Z.max a y)) as [H1 H2]. split; [lia|].
  intros x [<-|Hx]; [lia|auto].
Qed.

(** X3: a run that completes writes into key_len exactly two rows: under
    min the least of 2^32 and the lengths of the texts in front of the first
    [*] of all key lines of all files, under max the greatest of 0 and these
    lengths. *)
Theorem key_len_rows_exact (hwdb : option store) (files : list string) (db : store) :
  main hwdb files = Ok db ->
  key_len db =
    Some {[ "min" := fold_left Z.min (key_lengths (lines_of files)) (2 ^ 32);
            "max" := fold_left Z.max (key_lengths (lines_of files)) 0 ]}.
Proof.
  intros (st & H & ->)%main_Ok. rewrite committed_rows.
  apply run_bounds in H as [-> ->]. reflexivity.
Qed.

Lemma key_len_rows_exact_witness :
  Some ({[ "min" := 2; "max" := 3 ]} : gmap string Z) =
    Some {[ "min" := fold_left Z.min (key_lengths (lines_of [example_input])) (2 ^ 32);
            "max" := fold_left Z.max (key_lengths (lines_of [example_input])) 0 ]}.
Proof.
  apply (key_len_rows_exact None [example_input]
    {| products := Some {[ "ab" := "Acme Widget" ]};
       models := Some {[ "ab" := "Widget 2000"; "abc" := "Widget 3000" ]};
       key_len := Some {[ "min" := 2; "max" := 3 ]} |}).
  vm_compute. reflexivity.
Defined.

(** X4: in a run that completes, for every key line of every file the
    length of the text in front of its first [*] lies between the committed
    min and max; so min is at most max as soon as there is a key line. *)
Theorem observed_keys_within_bounds
    (hwdb : option store) (files : list string) (db : store) (c line : string) :
  main hwdb files = Ok db ->
  In c files -> In line (file_lines c) -> is_key_line line = true ->
  exists mn mx : Z,
    key_len db = Some {[ "min" := mn; "max" := mx ]} /\
    mn <= len (before "*" line) <= mx /\ mn <= mx.
Proof.
  intros (st & H & ->)%main_Ok Hc Hl Hk.
  exists (key_len_min st), (key_len_max st). split; [apply committed_rows|].
  apply run_bounds in H as [-> ->].
  assert (Hin : In (len (before "*" line)) (key_lengths (lines_of files))).
  { unfold key_lengths. apply (in_map (fun l => len (before "*" l))), List.filter_In.
    split; [|exact Hk].
    unfold lines_of. apply in_concat. exists (file_lines c). split; [|exact Hl].
    now apply in_map. }
  pose proof (proj2 (fold_min_le (key_lengths (lines_of files)) (2 ^ 32)) _ Hin).
  pose proof (proj2 (fold_max_ge (key_lengths (lines_of files)) 0) _ Hin).
  cbn [key_len_min key_len_max start]. lia.
Qed.

Lemma observed_keys_within_bounds_witness :
  exists mn mx : Z,
    Some ({[ "min" := 2; "max" := 3 ]} : gmap string Z) = Some {[ "min" := mn; "max" := mx ]} /\
    mn <= len (before "*" "abc*") <= mx /\ mn <= mx.
Proof.
  refine (observed_keys_within_bounds None [example_input]
    {| products := Some {[ "ab" := "Acme Widget" ]};
       models := Some {[ "ab" := "Widget 2000"; "abc" := "Widget 3000" ]};
       key_len := Some {[ "min" := 2; "max" := 3 ]} |}
    example_input "abc*" _ (or_introl eq_refl) _ eq_refl).
  - vm_compute. reflexivity.
  - vm_compute. tauto.
Defined.

(** ** Files put together *)

Lemma file_lines_app a b :
  file_lines (a +:+ String LF b) = (file_lines a ++ file_lines b)%list.
Proof. unfold file_lines. now rewrite split_app, List.filter_app, List.map_app. Qed.

(** X9: when the lines of [b] start with a key line (or [b] has no line
    for the loop), one file made of [a], a line feed and [b] has the effect
    of the two files [a] and [b] one after the other, on every state and in
    every run. *)
Theorem files_split_at_key_line
    (hwdb : option store) (fs1 fs2 : list string) (a b : string) :
  file_lines b = [] \/
    (exists k rest, file_lines b = k :: rest /\ is_key_line k = true) ->
  (forall st, do_file (a +:+ String LF b) st = do_file a st ≫= do_file b) /\
  main hwdb (fs1 ++ (a +:+ String LF b) :: fs2) = main hwdb (fs1 ++ a :: b :: fs2).
Proof.
  intros Hb.
  assert (Hd : forall st, do_file (a +:+ String LF b) st = do_file a st ≫= do_file b).
  { intros st. unfold do_file. rewrite file_lines_app, foldM_app.
    destruct (foldM body (file_lines a) ("", st)) as [[k s]|e]; [|reflexivity].
    cbn [mbind result_bind mret result_ret snd].
    destruct Hb as [-> | (kl & rest & -> & Hk)]; [reflexivity|].
    cbn [foldM]. now rewrite !(body_key _ _ _ Hk). }
  split; [exact Hd|].
  rewrite !main_spec, !foldM_app. f_equal.
  destruct (foldM do_file fs1 start) as [s|e]; [|reflexivity].
  cbn [mbind result_bind foldM]. rewrite Hd.
  now destruct (do_file a s).
Qed.

Lemma files_split_at_key_line_witness :
  main None [unlines ["ab*"; "ID_MODEL_FROM_DATABASE=Widget 2000"] +:+
             String LF (unlines ["abc*"; "ID_MODEL_FROM_DATABASE=Widget 3000"])] =
  main None [unlines ["ab*"; "ID_MODEL_FROM_DATABASE=Widget 2000"];
             unlines ["abc*"; "ID_MODEL_FROM_DATABASE=Widget 3000"]].
Proof.
  refine (proj2 (files_split_at_key_line None [] []
    (unlines ["ab*"; "ID_MODEL_FROM_DATABASE=Widget 2000"])
    (unlines ["abc*"; "ID_MODEL_FROM_DATABASE=Widget 3000"]) (or_intror _))).
  exists "abc*", ["ID_MODEL_FROM_DATABASE=Widget 3000"]. split; reflexivity.
Defined.

(** ** Where the rows come from *)

Lemma insert_attr_holds_inv cat' k' v' db db' cat k v :
  insert_attr cat' k' v' db = Ok db' -> holds cat db' k v ->
  holds cat db k v \/ (cat = cat' /\ k = k' /\ v = v').
Proof.
  rewrite insert_attr_spec. intros H (t & E & L).
  apply bind_Ok in H as (m & H & [= <-]).
  apply insert_row_Ok in H as (m0 & E0 & _ & ->).
  rewrite table_set_table in E. case_decide as Hc.
  - subst cat'. injection E as <-. rewrite lookup_insert in L.
    case_decide as Hk; [right; split_and!; congruence|].
    left. exists m0. now split.
  - left. exists t. now split.
Qed.

Lemma key_from_cons key line lines :
  key_from key (line :: lines) =
    key_from (if is_key_line line then before "*" line else key) lines.
Proof. reflexivity. Qed.

Lemma scan_rows cat k v lines key st key' st' :
  foldM body lines (key, st) = Ok (key', st') ->
  holds cat (cursor st') k v ->
  holds cat (cursor st) k v \/
  exists l1 a l2 value,
    lines = (l1 ++ a :: l2)%list /\ attr_line cat value a /\
    k = strip (key_from key l1) /\ v = strip value.
Proof.
  revert key st. induction lines as [|line lines IH]; intros key st H Hh; cbn [foldM] in H.
  - injection H as <- <-. now left.
  - apply bind_Ok in H as ([k1 s1] & Hb & H).
    assert (Hk1 : k1 = if is_key_line line then before "*" line else key).
    { apply body_Ok in Hb as [(-> & -> & _)|(-> & -> & _)]; reflexivity. }
    destruct (IH _ _ H Hh) as [Hh1|(l1 & a & l2 & value & -> & Ha & -> & ->)].
    2:{ right. exists (line :: l1), a, l2, value.
        rewrite key_from_cons, <- Hk1. now split_and!. }
    destruct (line_cases line) as [Hk|[[Hk Hu]|[(cat' & value & Ha)|Hi]]].
    + rewrite (body_key _ _ _ Hk) in Hb. injection Hb as _ <-. now left.
    + rewrite (body_unpack _ _ _ Hk Hu) in Hb. discriminate.
    + rewrite (body_attr _ _ _ _ _ Ha) in Hb.
      apply bind_Ok in Hb as (db & Hi & [= _ <-]). cbn [cursor set_cursor] in Hh1.
      destruct (insert_attr_holds_inv _ _ _ _ _ _ _ _ Hi Hh1) as [?|(-> & -> & ->)];
        [now left|].
      right. exists [], line, lines, value. now split_and!.
    + rewrite (body_ignored _ _ Hi) in Hb. injection Hb as _ <-. now left.
Qed.

Lemma run_rows cat k v files st st' :
  foldM do_file files st = Ok st' ->
  holds cat (cursor st') k v ->
  holds cat (cursor st) k v \/
  exists fs1 c fs2 l1 a l2 value,
    files = (fs1 ++ c :: fs2)%list /\ file_lines c = (l1 ++ a :: l2)%list /\
    attr_line cat value a /\ k = strip (key_at l1) /\ v = strip value.
Proof.
  revert st. induction files as [|c files IH]; intros st H Hh; cbn [foldM] in H.
  - injection H as <-. now left.
  - apply bind_Ok in H as (s1 & Hf & H).
    destruct (IH _ H Hh) as [Hh1|(fs1 & c' & fs2 & l1 & a & l2 & value & -> & ? & ? & ? & ?)].
    2:{ right. exists (c :: fs1), c', fs2, l1, a, l2, value. now split_and!. }
    unfold do_file in Hf. apply bind_Ok in Hf as ([k1 s] & Hf & [= <-]).
    destruct (scan_rows _ _ _ _ _ _ _ _ Hf Hh1) as [?|(l1 & a & l2 & value & ? & ? & ? & ?)];
      [now left|].
    right. exists [], c, files, l1, a, l2, value. now split_and!.
Qed.

(** X5: a run that completes stores nothing of its own: every row of
    products and of models is the row of an attribute line of that
    category in one of the files, its key the trimmed [key] in force at
    that line and its value the trimmed text after the first [=]. *)
Theorem every_row_comes_from_a_line
    (hwdb : option store) (files : list string) (db : store)
    (cat : category) (k v : string) :
  main hwdb files = Ok db ->
  holds cat db k v ->
  exists fs1 c fs2 l1 a l2 value,
    files = (fs1 ++ c :: fs2)%list /\ file_lines c = (l1 ++ a :: l2)%list /\
    attr_line cat value a /\ k = strip (key_at l1) /\ v = strip value.
Proof.
  intros (st & H & ->)%main_Ok Hh%holds_committed.
  destruct (run_rows _ _ _ _ _ _ H Hh) as [Hs|?]; [|assumption].
  now apply holds_empty_db in Hs.
Qed.

Lemma every_row_comes_from_a_line_witness :
  exists fs1 c fs2 l1 a l2 value,
    [example_input] = (fs1 ++ c :: fs2)%list /\ file_lines c = (l1 ++ a :: l2)%list /\
    attr_line Model value a /\ "abc" = strip (key_at l1) /\ "Widget 3000" = strip value.
Proof.
  refine (every_row_comes_from_a_line None [example_input]
    {| products := Some {[ "ab" := "Acme Widget" ]};
       models := Some {[ "ab" := "Widget 2000"; "abc" := "Widget 3000" ]};
       key_len := Some {[ "min" := 2; "max" := 3 ]} |} Model "abc" "Widget 3000" _ _).
  - vm_compute. reflexivity.
  - eexists. split; [reflexivity|]. vm_compute. reflexivity.
Defined.

Lemma key_from_without key lines :
  contains "*" key = false -> contains "*" (key_from key lines) = false.
Proof.
  revert key. induction lines as [|line lines IH]; intros key Hk; [exact Hk|].
  rewrite key_from_cons. apply IH. destruct (is_key_line line); [apply before_without|exact Hk].
Qed.

(** X6: in a run that completes, every key and every value stored in
    products and models is trimmed (it has no whitespace at either end),
    and no stored key has a [*] in it. *)
Theorem stored_rows_are_trimmed
    (hwdb : option store) (files : list string) (db : store)
    (cat : category) (k v : string) :
  main hwdb files = Ok db ->
  holds cat db k v ->
  trimmed k /\ trimmed v /\ contains "*" k = false.
Proof.
  intros (st & H & ->)%main_Ok Hh%holds_committed.
  destruct (run_rows _ _ _ _ _ _ H Hh)
    as [Hs|(fs1 & c & fs2 & l1 & a & l2 & value & _ & _ & _ & -> & ->)].
  { now apply holds_empty_db in Hs. }
  split_and!; [apply strip_idem..|].
  apply contains_strip, key_from_without. reflexivity.
Qed.

Lemma stored_rows_are_trimmed_witness :
  trimmed "ab" /\ trimmed "Acme Widget" /\ contains "*" "ab" = false.
Proof.
  refine (stored_rows_are_trimmed None
    [unlines ["ab *"; "  ID_PRODUCT_FROM_DATABASE=  Acme Widget "]]
    {| products := Some {[ "ab" := "Acme Widget" ]};
       models := Some ∅;
       key_len := Some {[ "min" := 3; "max" := 3 ]} |} Product "ab" "Acme Widget" _ _).
  - vm_compute. reflexivity.
  - eexists. split; [reflexivity|]. vm_compute. reflexivity.
Defined.

(** ** How many rows *)

Lemma inserts_of_cons cat line lines :
  inserts_of cat (line :: lines) =
    if reaches cat line then S (inserts_of cat lines) else inserts_of cat lines.
Proof. unfold inserts_of. cbn [List.filter]. now destruct (reaches cat line). Qed.

Lemma inserts_of_app cat l1 l2 :
  inserts_of cat (l1 ++ l2) = (inserts_of cat l1 + inserts_of cat l2)%nat.
Proof. unfold inserts_of. now rewrite List.filter_app, length_app. Qed.

Lemma key_line_reaches cat line : is_key_line line = true -> reaches cat line = false.
Proof. unfold reaches. now intros ->. Qed.

Lemma scan_size cat lines key st key' st' t :
  foldM body lines (key, st) = Ok (key', st') ->
  table cat (cursor st) = Some t ->
  exists t', table cat (cursor st') = Some t' /\
    size t' = (size t + inserts_of cat lines)%nat.
Proof.
  revert key st t. induction lines as [|line lines IH]; intros key st t H Ht; cbn [foldM] in H.
  - injection H as <- <-. exists t. split; [exact Ht|]. unfold inserts_of. simpl. lia.
  - apply bind_Ok in H as ([k1 s1] & Hb & H). rewrite inserts_of_cons.
    destruct (line_cases line) as [Hk|[[Hk Hu]|[(cat' & value & Ha)|Hi]]].
    + rewrite (body_key _ _ _ Hk) in Hb. injection Hb as <- <-.
      rewrite (key_line_reaches _ _ Hk). exact (IH _ _ _ H Ht).
    + rewrite (body_unpack _ _ _ Hk Hu) in Hb. discriminate.
    + rewrite (body_attr _ _ _ _ _ Ha) in Hb.
      apply bind_Ok in Hb as (db & Hi & [= <- <-]).
      rewrite (attr_line_reaches _ cat _ _ Ha).
      rewrite insert_attr_spec in Hi. apply bind_Ok in Hi as (m & Hi & [= <-]).
      apply insert_row_Ok in Hi as (m0 & E0 & N & ->).
      case_bool_decide as Hc.
      * subst cat'. assert (m0 = t) as -> by congruence.
        destruct (IH _ _ (<[strip key:=strip value]> t) H) as (t' & Ht' & Hs).
        { cbn [cursor set_cursor]. now rewrite table_set_table, decide_True. }
        exists t'. split; [exact Ht'|]. rewrite Hs, map_size_insert_None by exact N. lia.
      * apply (IH _ _ _ H). cbn [cursor set_cursor].
        now rewrite table_set_table, decide_False.
    + rewrite (body_ignored _ _ Hi) in Hb. injection Hb as <- <-.
      rewrite (ignored_reaches _ _ Hi). exact (IH _ _ _ H Ht).
Qed.

Lemma run_size cat files st st' t :
  foldM do_file files st = Ok st' ->
  table cat (cursor st) = Some t ->
  exists t', table cat (cursor st') = Some t' /\
    size t' = (size t + inserts_of cat (lines_of files))%nat.
Proof.
  revert st t. induction files as [|c files IH]; intros st t H Ht; cbn [foldM] in H.
  - injection H as <-. exists t. split; [exact Ht|]. unfold inserts_of. simpl. lia.
  - apply bind_Ok in H as (s1 & Hf & H).
    unfold do_file in Hf. apply bind_Ok in Hf as ([k s] & Hf & [= <-]).
    destruct (scan_size _ _ _ _ _ _ _ Hf Ht) as (t1 & Ht1 & Hs1).
    destruct (IH _ _ H Ht1) as (t' & Ht' & Hs).
    exists t'. split; [exact Ht'|].
    unfold lines_of. cbn [map concat]. fold (lines_of files).
    rewrite inserts_of_app. lia.
Qed.

(** X7: in a run that completes, the products table has exactly as many
    rows as there are product attribute lines in all the files, and the
    models table as many as there are model attribute lines: one row for
    each line, none shared and none lost. *)
Theorem one_row_for_each_attribute_line
    (hwdb : option store) (files : list string) (db : store) (cat : category) :
  main hwdb files = Ok db ->
  exists t, table cat db = Some t /\ size t = inserts cat files.
Proof.
  intros (st & H & ->)%main_Ok. rewrite table_committed.
  destruct (run_size cat files start st ∅ H) as (t & Ht & Hs); [now destruct cat|].
  exists t. split; [exact Ht|]. rewrite Hs, map_size_empty. reflexivity.
Qed.

Lemma one_row_for_each_attribute_line_witness :
  exists t,
    Some ({[ "ab" := "Widget 2000"; "abc" := "Widget 3000" ]} : gmap string string) = Some t /\
    size t = inserts Model [example_input].
Proof.
  refine (one_row_for_each_attribute_line None [example_input]
    {| products := Some {[ "ab" := "Acme Widget" ]};
       models := Some {[ "ab" := "Widget 2000"; "abc" := "Widget 3000" ]};
       key_len := Some {[ "min" := 2; "max" := 3 ]} |} Model _).
  vm_compute. reflexivity.
Defined.

(** ** What can go wrong *)

Lemma foldM_Err {A B : Type} (f : B -> A -> result A) l a e :
  foldM f l a = Err e ->
  exists l1 x l2 a1, l = (l1 ++ x :: l2)%list /\ foldM f l1 a = Ok a1 /\ f x a1 = Err e.
Proof.
  revert a. induction l as [|x l IH]; intros a H; cbn [foldM] in H; [discriminate|].
  destruct (f x a) as [a'|e'] eqn:Hx.
  - cbn [mbind result_bind] in H. destruct (IH _ H) as (l1 & y & l2 & a1 & -> & H1 & Hy).
    exists (x :: l1), y, l2, a1. split_and!; [reflexivity| |exact Hy].
    cbn [foldM]. now rewrite Hx.
  - injection H as ->. exists [], x, l, a. now split_and!.
Qed.

Lemma body_Err line key st e :
  ready (cursor st) -> body line (key, st) = Err e ->
  (e = ValueError /\ is_key_line line = false /\
   startswith "ID_" line = true /\ contains "=" line = false) \/
  (e = IntegrityError /\ exists cat value, attr_line cat value line).
Proof.
  intros (Hp & Hm & _) H.
  destruct (line_cases line) as [Hk|[[Hk Hu]|[(cat & value & Ha)|Hi]]].
  - rewrite (body_key _ _ _ Hk) in H. discriminate.
  - rewrite (body_unpack _ _ _ Hk Hu) in H. injection H as <-. left.
    unfold unpackable in Hu. rewrite Hk in Hu. cbn [orb] in Hu.
    apply orb_false_iff in Hu as [HID Heq]. apply negb_false_iff in HID. now split_and!.
  - right. rewrite (body_attr _ _ _ _ _ Ha) in H.
    assert (Ht : exists t, table cat (cursor st) = Some t) by (destruct cat; assumption).
    destruct Ht as [t Ht]. rewrite (insert_attr_table _ _ _ _ _ Ht) in H.
    destruct (t !! strip key); [|discriminate]. injection H as <-. eauto.
  - rewrite (body_ignored _ _ Hi) in H. discriminate.
Qed.

(** X8: a run can fail in two ways only.  It raises ValueError at a line
    of some file that is no key line, starts with [ID_] and has no [=]; or
    it raises IntegrityError at a product or model attribute line.  It never
    fails on [split('*')[0]], on a missing table, or on the two rows it
    writes into key_len. *)
Theorem run_fails_in_two_ways (hwdb : option store) (files : list string) (e : error) :
  main hwdb files = Err e ->
  exists c line, In c files /\ In line (file_lines c) /\
    ((e = ValueError /\ is_key_line line = false /\
      startswith "ID_" line = true /\ contains "=" line = false) \/
     (e = IntegrityError /\ exists cat value, attr_line cat value line)).
Proof.
  rewrite main_spec. intros H.
  destruct (foldM do_file files start) as [st|e'] eqn:Hrun.
  { cbn [mbind result_bind] in H.
    rewrite finish_ready in H by (eapply run_ready; [apply ready_start|exact Hrun]).
    discriminate. }
  injection H as ->.
  apply foldM_Err in Hrun as (fs1 & c & fs2 & s1 & -> & H1 & Hc).
  apply run_ready in H1; [|apply ready_start].
  unfold do_file in Hc.
  destruct (foldM body (file_lines c) ("", s1)) as [ks|e'] eqn:Hscan; [discriminate|].
  injection Hc as ->.
  apply foldM_Err in Hscan as (l1 & line & l2 & [k s] & Hl & Hs & Hb).
  apply scan_ready in Hs; [|exact H1].
  exists c, line. split_and!.
  - apply in_elt.
  - rewrite Hl. apply in_elt.
  - exact (body_Err _ _ _ _ Hs Hb).
Qed.

Lemma run_fails_in_two_ways_witness :
  exists c line,
    In c [unlines ["ab*"; "ID_MODEL_FROM_DATABASE"]] /\ In line (file_lines c) /\
    ((ValueError = ValueError /\ is_key_line line = false /\
      startswith "ID_" line = true /\ contains "=" line = false) \/
     (ValueError = IntegrityError /\ exists cat value, attr_line cat value line)).
Proof.
  refine (run_fails_in_two_ways None [unlines ["ab*"; "ID_MODEL_FROM_DATABASE"]] ValueError _).
  vm_compute. reflexivity.
Defined.

(** ** When the run completes *)

#[local] Set Warnings "-clear-no-such-hyp".

(** [row_keys] lists the trimmed [key] in force at each attribute line. *)
Lemma row_keys_spec cat lines key k :
  k ∈ row_keys cat key lines <->
  exists l1 a l2, lines = (l1 ++ a :: l2)%list /\ reaches cat a = true /\
    k = strip (key_from key l1).
Proof.
  revert key. induction lines as [|line lines IH]; intros key; cbn [row_keys].
  - split; [intros H; inversion H|]. intros (l1 & a & l2 & H & _). now destruct l1.
  - destruct (is_key_line line) eqn:Hk; [|destruct (reaches cat line) eqn:Hr].
    + rewrite IH. split.
      * intros (l1 & a & l2 & -> & Ha & ->). exists (line :: l1), a, l2.
        rewrite key_from_cons, Hk. now split_and!.
      * intros (l1 & a & l2 & H & Ha & ->). destruct l1 as [|x l1]; injection H as <- ->.
        { rewrite (key_line_reaches _ _ Hk) in Ha. discriminate. }
        exists l1, a, l2. rewrite key_from_cons, Hk. now split_and!.
    + rewrite elem_of_cons, IH. split.
      * intros [->|(l1 & a & l2 & -> & Ha & ->)].
        { exists [], line, lines. now split_and!. }
        exists (line :: l1), a, l2. rewrite key_from_cons, Hk. now split_and!.
      * intros (l1 & a & l2 & H & Ha & ->). destruct l1 as [|x l1]; injection H as <- ->.
        { now left. }
        right. exists l1, a, l2. rewrite key_from_cons, Hk. now split_and!.
    + rewrite IH. split.
      * intros (l1 & a & l2 & -> & Ha & ->). exists (line :: l1), a, l2.
        rewrite key_from_cons, Hk. now split_and!.
      * intros (l1 & a & l2 & H & Ha & ->). destruct l1 as [|x l1]; injection H as <- ->.
        { congruence. }
        exists l1, a, l2. rewrite key_from_cons, Hk. now split_and!.
Qed.

Lemma room_for_insert cat cat' k v ks db t :
  table cat' db = Some t ->
  room_for cat (if bool_decide (cat = cat') then k :: ks else ks) db ->
  room_for cat ks (set_table cat' (<[k:=v]> t) db).
Proof.
  intros Ht (t0 & Ht0 & Hnd & Hf). unfold room_for. rewrite table_set_table.
  case_decide as Hc.
  - subst cat'. rewrite bool_decide_eq_true_2 in Hnd, Hf by reflexivity.
    apply NoDup_cons in Hnd as [Hk Hnd]. exists (<[k:=v]> t). split_and!; [reflexivity|exact Hnd|].
    intros x Hx. rewrite lookup_insert_ne by (intros ->; contradiction).
    assert (t0 = t) as -> by congruence. apply Hf. now right.
  - rewrite bool_decide_eq_false_2 in Hnd, Hf by exact Hc. eauto.
Qed.

Lemma scan_succeeds (K : category -> list string) lines key st :
  forallb unpackable lines = true ->
  (forall cat, room_for cat (row_keys cat key lines ++ K cat) (cursor st)) ->
  exists key' st', foldM body lines (key, st) = Ok (key', st') /\
    forall cat, room_for cat (K cat) (cursor st').
Proof.
  revert key st. induction lines as [|line lines IH]; intros key st Hu Hr;
    cbn [foldM forallb row_keys] in *.
  - eauto.
  - apply andb_true_iff in Hu as [Hu1 Hu].
    destruct (line_cases line) as [Hk|[[Hk Hu']|[(cat' & value & Ha)|Hi]]].
    + rewrite (body_key _ _ _ Hk). cbn [mbind result_bind]. apply IH; [exact Hu|].
      intros cat. specialize (Hr cat). now rewrite Hk in Hr.
    + congruence.
    + rewrite (body_attr _ _ _ _ _ Ha).
      assert (Hk : is_key_line line = false) by apply Ha.
      destruct (Hr cat') as (t & Ht & Hnd & Hf).
      rewrite Hk, (attr_line_reaches _ cat' _ _ Ha), bool_decide_eq_true_2 in Hnd, Hf
        by reflexivity.
      rewrite (insert_attr_table _ _ _ _ _ Ht), Hf by now left.
      cbn [mbind result_bind mret result_ret]. apply IH; [exact Hu|].
      intros cat. cbn [cursor set_cursor]. apply (room_for_insert _ _ _ _ _ _ _ Ht).
      specialize (Hr cat). rewrite Hk, (attr_line_reaches _ cat _ _ Ha) in Hr.
      now destruct (bool_decide (cat = cat')).
    + rewrite (body_ignored _ _ Hi). cbn [mbind result_bind]. apply IH; [exact Hu|].
      intros cat. specialize (Hr cat).
      now rewrite (proj1 Hi), (ignored_reaches _ _ Hi) in Hr.
Qed.

Lemma run_succeeds files st :
  all_lines unpackable files = true ->
  (forall cat, room_for cat (run_row_keys cat files) (cursor st)) ->
  exists st', foldM do_file files st = Ok st'.
Proof.
  unfold all_lines, run_row_keys.
  revert st. induction files as [|c files IH]; intros st Hu Hr;
    cbn [foldM forallb map concat] in *.
  - eauto.
  - apply andb_true_iff in Hu as [Hu1 Hu].
    destruct (scan_succeeds _ _ _ _ Hu1 Hr) as (k & s & Hs & Hr').
    unfold do_file. rewrite Hs. cbn [mbind result_bind mret result_ret snd].
    now apply IH.
Qed.

Lemma scan_keys cat lines key st key' st' t :
  foldM body lines (key, st) = Ok (key', st') ->
  table cat (cursor st) = Some t ->
  exists t', table cat (cursor st') = Some t' /\
    dom t' = dom t ∪ list_to_set (row_keys cat key lines) /\
    room_for cat (row_keys cat key lines) (cursor st).
Proof.
  revert key st t. induction lines as [|line lines IH]; intros key st t H Ht;
    cbn [foldM row_keys] in *.
  - injection H as <- <-. exists t. split_and!; [exact Ht|set_solver|].
    exists t. split_and!; [exact Ht|constructor|]. intros k Hk. inversion Hk.
  - apply bind_Ok in H as ([k1 s1] & Hb & H).
    destruct (line_cases line) as [Hk|[[Hk Hu]|[(cat' & value & Ha)|Hi]]].
    + rewrite (body_key _ _ _ Hk) in Hb. injection Hb as <- <-. rewrite Hk.
      exact (IH _ _ _ H Ht).
    + rewrite (body_unpack _ _ _ Hk Hu) in Hb. discriminate.
    + rewrite (body_attr _ _ _ _ _ Ha) in Hb.
      apply bind_Ok in Hb as (db & Hi & [= <- <-]).
      rewrite (proj2 Ha), (attr_line_reaches _ cat _ _ Ha).
      rewrite insert_attr_spec in Hi. apply bind_Ok in Hi as (m & Hi & [= <-]).
      apply insert_row_Ok in Hi as (m0 & E0 & N & ->).
      case_bool_decide as Hc.
      * subst cat'. assert (m0 = t) as -> by congruence.
        destruct (IH _ _ (<[strip key:=strip value]> t) H)
          as (t' & Ht' & Hd & (t1 & Ht1 & Hnd & Hf)).
        { cbn [cursor set_cursor]. now rewrite table_set_table, decide_True. }
        cbn [cursor set_cursor] in Ht1. rewrite table_set_table, decide_True in Ht1 by reflexivity.
        injection Ht1 as <-.
        exists t'. split_and!; [exact Ht'|rewrite Hd, dom_insert_L; set_solver|].
        exists t. split_and!; [exact Ht| |].
        -- apply NoDup_cons. split; [|exact Hnd]. intros Hin.
           specialize (Hf _ Hin). now rewrite lookup_insert_eq in Hf.
        -- intros k [->|Hin]%elem_of_cons; [exact N|].
           specialize (Hf _ Hin).
           destruct (decide (k = strip key)) as [->|Hne]; [exact N|].
           now rewrite lookup_insert_ne in Hf.
      * destruct (IH _ _ t H) as (t' & Ht' & Hd & (t1 & Ht1 & Hnd & Hf)).
        { cbn [cursor set_cursor]. now rewrite table_set_table, decide_False. }
        cbn [cursor set_cursor] in Ht1. rewrite table_set_table, decide_False in Ht1 by exact Hc.
        exists t'. split_and!; [exact Ht'|exact Hd|]. exists t1. now split_and!.
    + rewrite (body_ignored _ _ Hi) in Hb. injection Hb as <- <-.
      rewrite (proj1 Hi), (ignored_reaches _ _ Hi). exact (IH _ _ _ H Ht).
Qed.

Lemma run_keys cat files st st' t :
  foldM do_file files st = Ok st' ->
  table cat (cursor st) = Some t ->
  exists t', table cat (cursor st') = Some t' /\
    dom t' = dom t ∪ list_to_set (run_row_keys cat files) /\
    room_for cat (run_row_keys cat files) (cursor st).
Proof.
  unfold run_row_keys.
  revert st t. induction files as [|c files IH]; intros st t H Ht;
    cbn [foldM map concat] in *.
  - injection H as <-. exists t. split_and!; [exact Ht|set_solver|].
    exists t. split_and!; [exact Ht|constructor|]. intros k Hk. inversion Hk.
  - apply bind_Ok in H as (s1 & Hf & H).
    unfold do_file in Hf. apply bind_Ok in Hf as ([k s] & Hf & [= <-]).
    destruct (scan_keys cat _ _ _ _ _ _ Hf Ht) as (t1 & Ht1 & Hd1 & (t0 & Ht0 & Hnd1 & Hf1)).
    assert (t0 = t) as -> by congruence.
    destruct (IH _ _ H Ht1) as (t' & Ht' & Hd & (t2 & Ht2 & Hnd2 & Hf2)).
    assert (t2 = t1) as -> by congruence.
    exists t'. split_and!; [exact Ht'|rewrite Hd, Hd1, list_to_set_app_L; set_solver|].
    exists t. split_and!; [exact Ht| |].
    + apply NoDup_app. split_and!; [exact Hnd1| |exact Hnd2].
      intros x Hx1 Hx2. specialize (Hf2 _ Hx2).
      apply not_elem_of_dom in Hf2. rewrite Hd1 in Hf2. set_solver.
    + intros x [Hx|Hx]%elem_of_app; [now apply Hf1|].
      specialize (Hf2 _ Hx). apply not_elem_of_dom in Hf2. rewrite Hd1 in Hf2.
      apply not_elem_of_dom. set_solver.
Qed.

Lemma room_for_start cat ks : NoDup ks -> room_for cat ks (cursor start).
Proof.
  intros H. exists ∅. split_and!; [now destruct cat|exact H|].
  intros k _. apply lookup_empty.
Qed.

Lemma run_unpackable files st e :
  all_lines unpackable files = false -> foldM do_file files st = Ok e -> False.
Proof.
  unfold all_lines. revert st. induction files as [|c files IH]; intros st Hu H;
    cbn [foldM forallb] in *; [discriminate|].
  apply bind_Ok in H as (s1 & Hf & H).
  apply andb_false_iff in Hu as [Hu|Hu]; [|exact (IH _ Hu H)].
  unfold do_file in Hf. apply bind_Ok in Hf as ([k s] & Hf & _). clear H IH.
  revert Hf Hu. generalize (file_lines c) "" st.
  induction l as [|line l IH]; intros key s0 Hf Hu; cbn [foldM forallb] in *; [discriminate|].
  apply bind_Ok in Hf as ([k1 s1'] & Hb & Hf).
  apply andb_false_iff in Hu as [Hu|Hu]; [|exact (IH _ _ Hf Hu)].
  destruct (is_key_line line) eqn:Hk.
  - unfold unpackable in Hu. now rewrite Hk in Hu.
  - rewrite (body_unpack _ _ _ Hk Hu) in Hb. discriminate.
Qed.

(** X12: the run completes exactly when every line that starts with
    [ID_] and is no key line has an [=], and no two product lines and no
    two model lines of the whole input have the same trimmed [key]; and
    then the keys of each table are exactly the trimmed keys in force at
    its attribute lines. *)
Theorem run_completes_exactly (hwdb : option store) (files : list string) :
  ((exists db, main hwdb files = Ok db) <->
   all_lines unpackable files = true /\
   forall cat, NoDup (run_row_keys cat files)) /\
  (forall db cat, main hwdb files = Ok db ->
   exists t, table cat db = Some t /\ dom t = list_to_set (run_row_keys cat files)).
Proof.
  assert (Hkeys : forall st cat, foldM do_file files start = Ok st ->
            exists t, table cat (cursor st) = Some t /\
              dom t = list_to_set (run_row_keys cat files) /\
              NoDup (run_row_keys cat files)).
  { intros st cat H.
    destruct (run_keys cat files start st ∅ H) as (t & Ht & Hd & (t0 & _ & Hnd & _));
      [now destruct cat|].
    exists t. split_and!; [exact Ht| |exact Hnd].
    rewrite Hd, dom_empty_L. apply (left_id_L ∅ (∪)). }
  split; [split|].
  - intros [db (st & H & ->)%main_Ok]. split.
    + destruct (all_lines unpackable files) eqn:Hu; [reflexivity|].
      destruct (run_unpackable _ _ _ Hu H).
    + intros cat. destruct (Hkeys st cat H) as (t & _ & _ & Hnd). exact Hnd.
  - intros [Hu Hnd]. destruct (run_succeeds files start Hu) as [st H].
    { intros cat. apply room_for_start, Hnd. }
    exists (committed st). apply main_Ok. eauto.
  - intros db cat (st & H & ->)%main_Ok. rewrite table_committed.
    destruct (Hkeys st cat H) as (t & Ht & Hd & _). eauto.
Qed.

Lemma run_completes_exactly_witness : exists db, main None [example_input] = Ok db.
Proof.
  refine (proj2 (proj1 (run_completes_exactly None [example_input])) (conj eq_refl _)).
  intros [|]; vm_compute; repeat constructor; set_solver.
Defined.
